(** * Media downloader bot: control-flow model of [Main_code.py]

    The bot is glue between a chat transport and a media-extraction
    engine.  Both collaborators, the filesystem and the logger are
    modelled as an explicit world: a file table, the per-user
    [user_data] bag and the ordered list of external calls the handlers
    attempted.  Which external calls raise is decided by an environment
    record, so that every handler is an executable function of its
    update, the configuration and the environment. *)

From Stdlib Require Import ZArith QArith Ascii String List Lia.
From stdpp Require Import base option gmap strings pretty.

Import ListNotations.
Local Open Scope string_scope.
Local Open Scope list_scope.
Local Open Scope Z_scope.

(** ** Python string primitives used by the source *)

Module Py.

(** [s.startswith(p)] *)
Definition startswith (s p : string) : bool := String.prefix p s.

(** [s[:n]] *)
Fixpoint slice_to (n : nat) (s : string) : string :=
  match n, s with
  | S k, String c s' => String c (slice_to k s')
  | _, _ => EmptyString
  end.

(** [s[n:]] *)
Fixpoint slice_from (n : nat) (s : string) : string :=
  match n, s with
  | S k, String _ s' => slice_from k s'
  | _, _ => s
  end.

(** [s.split(sep)] for a one-character separator: never empty. *)
Fixpoint split (sep : ascii) (s : string) : list string :=
  match s with
  | EmptyString => [EmptyString]
  | String c s' =>
      if Ascii.eqb c sep then EmptyString :: split sep s'
      else match split sep s' with
           | h :: t => String c h :: t
           | [] => [String c EmptyString]
           end
  end.

(** Head of [s.rsplit(sep, 1)] when [sep] occurs in [s]. *)
Fixpoint rsplit1_head (sep : ascii) (s : string) : option string :=
  match s with
  | EmptyString => None
  | String c s' =>
      match rsplit1_head sep s' with
      | Some h => Some (String c h)
      | None => if Ascii.eqb c sep then Some EmptyString else None
      end
  end.

(** [s.rsplit(sep, 1)[0]] *)
Definition rsplit1_0 (sep : ascii) (s : string) : string :=
  default s (rsplit1_head sep s).

(** [s.replace(pat, '')] for a non-empty [pat]; [skip] counts the
    characters of a match that are still to be dropped. *)
Fixpoint remove_all_from (pat : string) (skip : nat) (s : string) : string :=
  match s with
  | EmptyString => EmptyString
  | String c s' =>
      match skip with
      | S k => remove_all_from pat k s'
      | O =>
          if String.prefix pat s
          then remove_all_from pat (Nat.pred (String.length pat)) s'
          else String c (remove_all_from pat O s')
      end
  end.

Definition remove_all (pat s : string) : string :=
  match pat with
  | EmptyString => s
  | _ => remove_all_from pat O s
  end.

(** [x in l] for a list of strings *)
Definition mem (x : string) (l : list string) : bool :=
  existsb (String.eqb x) l.

(** [os.path.join(a, b)] for a relative [b] *)
Definition ends_with_slash (a : string) : bool :=
  match String.get (Nat.pred (String.length a)) a with
  | Some c => Ascii.eqb c "/"
  | None => false
  end.

Definition path_join (a b : string) : string :=
  if String.eqb a "" then b
  else if ends_with_slash a then a +:+ b
  else a +:+ "/" +:+ b.

End Py.

(** ** Regular expressions of the URL extractor

    The two patterns of the source are written as terms of a small
    regular-expression type and decided by derivatives.  Text is a
    string of bytes; the character classes are the ASCII ones. *)

Module Re.

Inductive regex :=
| Void
| Eps
| Class (p : ascii -> bool)
| Seq (r s : regex)
| Alt (r s : regex)
| Star (r : regex)
| Rep (r : regex) (lo hi : nat).   (* r{lo,hi}, r not nullable *)

Fixpoint nullable (r : regex) : bool :=
  match r with
  | Void => false
  | Eps => true
  | Class _ => false
  | Seq r s => nullable r && nullable s
  | Alt r s => nullable r || nullable s
  | Star _ => true
  | Rep r lo _ => Nat.eqb lo 0 || nullable r
  end.

Definition seq (r s : regex) : regex :=
  match r, s with
  | Void, _ => Void
  | _, Void => Void
  | Eps, _ => s
  | _, Eps => r
  | _, _ => Seq r s
  end.

Definition alt (r s : regex) : regex :=
  match r, s with
  | Void, _ => s
  | _, Void => r
  | _, _ => Alt r s
  end.

Fixpoint deriv (c : ascii) (r : regex) : regex :=
  match r with
  | Void => Void
  | Eps => Void
  | Class p => if p c then Eps else Void
  | Seq r s =>
      if nullable r then alt (seq (deriv c r) s) (deriv c s)
      else seq (deriv c r) s
  | Alt r s => alt (deriv c r) (deriv c s)
  | Star r => seq (deriv c r) (Star r)
  | Rep r lo hi =>
      match hi with
      | O => Void
      | S hi' => seq (deriv c r) (Rep r (Nat.pred lo) hi')
      end
  end.

(** The whole string belongs to the language of [r]. *)
Fixpoint fullmatch (r : regex) (s : string) : bool :=
  match s with
  | EmptyString => nullable r
  | String c s' =>
      match deriv c r with
      | Void => false
      | r' => fullmatch r' s'
      end
  end.

Definition code (c : ascii) : nat := nat_of_ascii c.
Definition between (lo hi : nat) (c : ascii) : bool :=
  Nat.leb lo (code c) && Nat.leb (code c) hi.

Definition chr (a : ascii) : regex := Class (Ascii.eqb a).
(** a literal letter under [re.IGNORECASE] *)
Definition chr_i (a : ascii) : regex :=
  Class (fun c => Ascii.eqb c a
                  || (between 65 90 c && Nat.eqb (code c + 32) (code a))
                  || (between 97 122 c && Nat.eqb (code c) (code a + 32))).
Fixpoint lit_i (s : string) : regex :=
  match s with
  | EmptyString => Eps
  | String a s' => Seq (chr_i a) (lit_i s')
  end.
Definition opt (r : regex) : regex := Alt r Eps.
Definition plus (r : regex) : regex := Seq r (Star r).

Definition is_digit (c : ascii) : bool := between 48 57 c.
Definition is_alpha (c : ascii) : bool := between 65 90 c || between 97 122 c.
Definition is_space (c : ascii) : bool :=
  between 9 13 c || between 28 32 c.

End Re.

(** ** URL extractor *)

(** One character of the repeated group of the [re.findall] pattern in
    [handle_message]:
    [[a-zA-Z] | [0-9] | [$-_@.&+] | [!*\\(\\),] | %XX].
    [$-_] is the range 36..95, which already holds the digits, the upper
    case letters, [%], the backslash and every other listed sign but
    [!]; a [%XX] triple is three characters of the class. *)
Definition url_char (c : ascii) : bool :=
  Re.is_alpha c || Re.is_digit c
  || Re.between 36 95 c || Ascii.eqb c "@" || Ascii.eqb c "." || Ascii.eqb c "&"
  || Ascii.eqb c "+"
  || Ascii.eqb c "!" || Ascii.eqb c "*" || Ascii.eqb c "\" || Ascii.eqb c "("
  || Ascii.eqb c ")" || Ascii.eqb c ",".

(** Longest prefix of [s] made of [url_char]s (the greedy [+]). *)
Fixpoint url_run (s : string) : string :=
  match s with
  | String c s' => if url_char c then String c (url_run s') else EmptyString
  | EmptyString => EmptyString
  end.

(** The match of [http[s]?://(...)+] that starts at the head of [s]. *)
Definition url_match_here (s : string) : option string :=
  let after (scheme rest : string) :=
    match url_run rest with
    | EmptyString => None
    | run => Some (scheme +:+ run)
    end in
  if String.prefix "https://" s
  then after "https://" (Py.slice_from 8 s)
  else if String.prefix "http://" s
       then after "http://" (Py.slice_from 7 s)
       else None.

(** [re.findall(pattern, text)]: leftmost non-overlapping matches;
    [skip] counts the characters of the last match still to be passed. *)
Fixpoint findall_urls_from (skip : nat) (s : string) : list string :=
  match s with
  | EmptyString => []
  | String _ s' =>
      match skip with
      | S k => findall_urls_from k s'
      | O =>
          match url_match_here s with
          | Some u => u :: findall_urls_from (Nat.pred (String.length u)) s'
          | None => findall_urls_from O s'
          end
      end
  end.

Definition findall_urls (text : string) : list string :=
  findall_urls_from O text.

(** The pattern compiled in [MediaDownloader.is_valid_url]
    ([re.IGNORECASE]). *)
Definition url_pattern : Re.regex :=
  let alnum := Re.Class (fun c => Re.is_alpha c || Re.is_digit c) in
  let alnum_dash :=
    Re.Class (fun c => Re.is_alpha c || Re.is_digit c || Ascii.eqb c "-") in
  let digit := Re.Class Re.is_digit in
  let dot := Re.chr "." in
  let label :=
    Re.Seq alnum (Re.Seq (Re.opt (Re.Seq (Re.Rep alnum_dash 0 61) alnum)) dot) in
  let domain :=
    Re.Seq (Re.plus label)
           (Re.Seq (Re.Rep (Re.Class Re.is_alpha) 2 6) (Re.opt dot)) in
  let octet := Re.Rep digit 1 3 in
  let ip :=
    Re.Seq octet (Re.Seq dot (Re.Seq octet (Re.Seq dot
      (Re.Seq octet (Re.Seq dot octet))))) in
  let host := Re.Alt domain (Re.Alt (Re.lit_i "localhost") ip) in
  let port := Re.opt (Re.Seq (Re.chr ":") (Re.plus digit)) in
  let slash_or_query := Re.Class (fun c => Ascii.eqb c "/" || Ascii.eqb c "?") in
  let tail :=
    Re.Alt (Re.opt (Re.chr "/"))
           (Re.Seq slash_or_query (Re.plus (Re.Class (fun c => negb (Re.is_space c))))) in
  (* [$] also matches just before a final newline *)
  let dollar := Re.opt (Re.chr "010") in
  Re.Seq (Re.lit_i "http") (Re.Seq (Re.opt (Re.chr_i "s")) (Re.Seq (Re.lit_i "://")
    (Re.Seq host (Re.Seq port (Re.Seq tail dollar))))).

(** [MediaDownloader.is_valid_url]: [url_pattern.match(url) is not None] *)
Definition is_valid_url (url : string) : bool :=
  Re.fullmatch url_pattern url.

(** ** Configuration (module-level constants of the source) *)

Record Config := {
  BOT_TOKEN : string;
  DOWNLOAD_PATH : string;
  MAX_FILE_SIZE_MB : Z;          (* int(os.getenv('MAX_FILE_SIZE_MB', '2048')) *)
  ALLOWED_USERS : list string    (* os.getenv('ALLOWED_USERS', '').split(',') *)
}.

(** [os.getenv('ALLOWED_USERS', '').split(',')] *)
Definition allowed_users_of_env (v : option string) : list string :=
  Py.split "," (default "" v).

Definition REGULAR_USER_LIMIT_MB : Z := 50.
Definition PREMIUM_USER_LIMIT_MB : Z := 2048.

(** Bytes in one MB: [1024 * 1024] *)
Definition MB : Z := 1024 * 1024.

(** ** Values, exceptions, results *)

(** The Python values an engine info dict holds in this program. *)
Inductive pyval :=
| PNone
| PInt (n : Z)
| PFloat (q : Q)
| PStr (s : string).

Definition truthy (v : pyval) : bool :=
  match v with
  | PNone => false
  | PInt n => negb (n =? 0)
  | PFloat q => negb (Qeq_bool q 0)
  | PStr s => negb (String.eqb s "")
  end.

(** [a or b] *)
Definition py_or (a b : pyval) : pyval := if truthy a then a else b.

(** An exception: its class name and [str(e)]. *)
Record exn := Exn { exn_type : string; exn_str : string }.

Definition TypeError (m : string) : exn := Exn "TypeError" m.
Definition ValueError (m : string) : exn := Exn "ValueError" m.
Definition AttributeError (m : string) : exn := Exn "AttributeError" m.
Definition FileNotFoundError (path : string) : exn :=
  Exn "FileNotFoundError" ("No such file or directory: " +:+ path).

Abbreviation Info := (gmap string pyval).

(** [a > b] on rationals *)
Definition Qgtb (a b : Q) : bool := negb (Qle_bool a b).

(** [x / (1024 * 1024)] *)
Definition div_MB (x : pyval) : exn + Q :=
  match x with
  | PInt n => inr (Qmake n (Z.to_pos MB))
  | PFloat q => inr (q / inject_Z MB)%Q
  | _ => inl (TypeError "unsupported operand type(s) for /")
  end.

(** [x > n] for an integer [n] *)
Definition gt_int (x : pyval) (n : Z) : exn + bool :=
  match x with
  | PInt m => inr (n <? m)
  | PFloat q => inr (Qgtb q (inject_Z n))
  | _ => inl (TypeError "'>' not supported between these instances")
  end.

(** The options dict built by [get_yt_dlp_options]. *)
Record YdlOpts := {
  outtmpl : string;
  format : string;
  postprocessors : option (string * string * string);  (* key, codec, quality *)
  merge_output_format : option string;
  progress_hooks : bool
}.

(** The success dict of [download_media]. *)
Record Media := {
  filepath : string;
  title : pyval;
  duration : pyval;
  thumbnail : pyval;
  uploader : pyval;
  description : string;
  filesize_mb : pyval
}.

Inductive ErrorText :=
| SizeExceeds (filesize_mb : Q) (limit : Z)  (* 'File size (..MB) exceeds maximum limit (..MB)' *)
| ExnText (msg : string).                    (* str(e) *)

(** The dict returned by [download_media]: ['success'] is the constructor. *)
Inductive DownloadResult :=
| DlSuccess (m : Media)
| DlFailure (error : ErrorText) (filesize_mb : option Q).

Definition success (r : DownloadResult) : bool :=
  match r with DlSuccess _ => true | DlFailure _ _ => false end.

(** ** Conversation state *)

Record PendingFile := {
  pf_filepath : string;
  pf_file_size_mb : Q;
  pf_result : Media;
  pf_media_type : string
}.

(** [context.user_data]: the four keys the program uses; [None] is an
    absent key. *)
Record UserData := {
  ud_quality : option string;
  ud_media_type : option string;
  ud_has_premium : option bool;
  ud_pending_file : option PendingFile
}.

Definition empty_user_data : UserData :=
  {| ud_quality := None; ud_media_type := None;
     ud_has_premium := None; ud_pending_file := None |}.

Definition set_quality (q : string) (u : UserData) : UserData :=
  {| ud_quality := Some q; ud_media_type := ud_media_type u;
     ud_has_premium := ud_has_premium u; ud_pending_file := ud_pending_file u |}.
Definition set_media_type (m : string) (u : UserData) : UserData :=
  {| ud_quality := ud_quality u; ud_media_type := Some m;
     ud_has_premium := ud_has_premium u; ud_pending_file := ud_pending_file u |}.
Definition set_has_premium (b : bool) (u : UserData) : UserData :=
  {| ud_quality := ud_quality u; ud_media_type := ud_media_type u;
     ud_has_premium := Some b; ud_pending_file := ud_pending_file u |}.
Definition set_pending_file (p : option PendingFile) (u : UserData) : UserData :=
  {| ud_quality := ud_quality u; ud_media_type := ud_media_type u;
     ud_has_premium := ud_has_premium u; ud_pending_file := p |}.

(** ** Outbound messages and external calls *)

Record Button := { label : string; callback_data : string }.
Abbreviation Keyboard := (list (list Button)).

(** The texts the bot sends, by their variable parts. *)
Inductive Message :=
| MsgWelcome
| MsgHelp (max_mb : Z)
| MsgSelectQuality
| MsgAudioMode
| MsgVideoMode (quality : string)
| MsgQualitySet (quality : string)
| MsgUploading
| MsgUploadFailed (err : string)
| MsgFileExpired
| MsgPremiumRequired (file_size_mb : Q) (regular_limit : Z)
| MsgUnauthorized
| MsgNoUrl
| MsgInvalidUrl
| MsgProcessing (media_type url50 quality : string)
| MsgDownloadFailed (error : ErrorText)
| MsgDownloadComplete
| MsgFileTooLarge (file_size_mb : Q) (premium_limit : Z)
| MsgLargeFile (file_size_mb : Q) (regular_limit premium_limit : Z)
| MsgErrorOccurred (details : string)
| MsgGenericError.

Record Caption := {
  cap_title : pyval;
  cap_uploader : pyval;
  cap_minutes : Z;
  cap_seconds : Z;
  cap_size_mb : Q
}.

(** Every call that leaves the program. *)
Inductive Call :=
| ReplyText (m : Message) (kb : option Keyboard)
| EditText (m : Message) (kb : option Keyboard)
| SendChatAction (action : string)
| ReplyAudio (path : string) (c : Caption)
| ReplyVideo (path : string) (c : Caption)
| DeleteMessage
| AnswerQuery
| OsRemove (path : string)
| LogError (text : string)
| ExtractInfo (url : string) (opts : YdlOpts) (download : bool).

(** Is the call an attempt to send the media file? *)
Definition is_send (c : Call) : bool :=
  match c with ReplyAudio _ _ | ReplyVideo _ _ => true | _ => false end.

Definition is_remove_of (p : string) (c : Call) : bool :=
  match c with OsRemove q => String.eqb p q | _ => false end.

Definition is_engine_download (c : Call) : bool :=
  match c with ExtractInfo _ _ d => d | _ => false end.

(** ** The extraction engine and the environment *)

Record Engine := {
  (** [ydl.extract_info(url, download=d)] *)
  extract_info : string -> YdlOpts -> bool -> exn + Info;
  (** the files a successful download leaves, with their sizes in bytes *)
  download_writes : string -> YdlOpts -> list (string * Z);
  (** [ydl.prepare_filename(info)] *)
  prepare_filename : YdlOpts -> Info -> exn + string
}.

Record Env := {
  (** the exception, if any, a transport or filesystem call ends in *)
  fails : Call -> option exn;
  engine : Engine
}.

(** ** World and the handler monad *)

Record World := {
  files : gmap string Z;     (* the download directory: path to size in bytes *)
  user_data : UserData;
  calls : list Call          (* attempted calls, oldest first *)
}.

Inductive outcome (A : Type) :=
| Return (a : A)
| Raise (e : exn).
Arguments Return {A} a.
Arguments Raise {A} e.

Definition M (A : Type) : Type := World -> outcome A * World.

#[global] Instance M_ret : MRet M := fun A a w => (Return a, w).
#[global] Instance M_bind : MBind M := fun A B f m w =>
  match m w with
  | (Return a, w') => f a w'
  | (Raise e, w') => (Raise e, w')
  end.

Definition raise {A} (e : exn) : M A := fun w => (Raise e, w).

(** [try: m  except Exception as e: h e] *)
Definition try_except {A} (m : M A) (h : exn -> M A) : M A := fun w =>
  match m w with
  | (Return a, w') => (Return a, w')
  | (Raise e, w') => h e w'
  end.

Definition lift {A} (r : exn + A) : M A :=
  match r with inl e => raise e | inr a => mret a end.

Definition record (c : Call) (w : World) : World :=
  {| files := files w; user_data := user_data w; calls := calls w ++ [c] |}.

Definition get_user_data : M UserData := fun w => (Return (user_data w), w).
Definition modify_user_data (f : UserData -> UserData) : M unit := fun w =>
  (Return tt, {| files := files w; user_data := f (user_data w); calls := calls w |}).
Definition write_files (l : list (string * Z)) : M unit := fun w =>
  (Return tt, {| files := foldr (fun kv m => <[kv.1 := kv.2]> m) (files w) (rev l);
                 user_data := user_data w; calls := calls w |}).

(** ** Inbound updates *)

Inductive Update :=
| Command (user_id : Z) (name : string)         (* a "/name" message *)
| TextMessage (user_id : Z) (text : string)     (* text that is no command *)
| CallbackQuery (user_id : Z) (data : string).  (* a button press *)

(** [update.effective_user.id] *)
Definition effective_user_id (u : Update) : Z :=
  match u with
  | Command i _ | TextMessage i _ | CallbackQuery i _ => i
  end.

(** [update.message.text]; a button press carries no message of its own. *)
Definition message_text (u : Update) : exn + string :=
  match u with
  | Command _ n => inr ("/" +:+ n)
  | TextMessage _ t => inr t
  | CallbackQuery _ _ => inl (AttributeError "'NoneType' object has no attribute 'text'")
  end.

(** [update.callback_query.data] *)
Definition query_data (u : Update) : exn + string :=
  match u with
  | CallbackQuery _ d => inr d
  | _ => inl (AttributeError "'NoneType' object has no attribute 'answer'")
  end.

(** [str(n)] for an integer *)
Definition str_of_int (n : Z) : string := pretty n.

Section Bot.

Context (cfg : Config) (env : Env).

(** *** External calls *)

(** A transport call: it is recorded, then it returns or raises as the
    environment says. *)
Definition call (c : Call) : M unit := fun w =>
  match fails env c with
  | Some e => (Raise e, record c w)
  | None => (Return tt, record c w)
  end.

(** [logger.error(...)] *)
Definition logger_error (text : string) : M unit := fun w =>
  (Return tt, record (LogError text) w).

(** [os.path.exists(p)] *)
Definition os_path_exists (p : string) : M bool := fun w =>
  (Return (bool_decide (is_Some (files w !! p))), w).

(** [os.path.getsize(p)] *)
Definition os_path_getsize (p : string) : M Z := fun w =>
  match files w !! p with
  | Some n => (Return n, w)
  | None => (Raise (FileNotFoundError p), w)
  end.

(** [os.remove(p)] *)
Definition os_remove (p : string) : M unit := fun w =>
  let w' := record (OsRemove p) w in
  match files w !! p with
  | None => (Raise (FileNotFoundError p), w')
  | Some _ =>
      match fails env (OsRemove p) with
      | Some e => (Raise e, w')
      | None =>
          (Return tt, {| files := delete p (files w');
                         user_data := user_data w'; calls := calls w' |})
      end
  end.

(** [if os.path.exists(p): os.remove(p)] *)
Definition remove_if_exists (p : string) : M unit :=
  ex ← os_path_exists p;
  if ex : bool then os_remove p else mret tt.

(** [open(p, 'rb')] *)
Definition open_rb (p : string) : M unit := fun w =>
  match files w !! p with
  | Some _ => (Return tt, w)
  | None => (Raise (FileNotFoundError p), w)
  end.

(** [ydl.extract_info(url, download=d)]: a successful download leaves
    its files in the download directory. *)
Definition ydl_extract_info (url : string) (opts : YdlOpts) (d : bool) : M Info :=
  fun w =>
    let w' := record (ExtractInfo url opts d) w in
    match extract_info (engine env) url opts d with
    | inl e => (Raise e, w')
    | inr info =>
        if d
        then (write_files (download_writes (engine env) url opts);; mret info) w'
        else (Return info, w')
    end.

(** *** MediaDownloader *)

(** [MediaDownloader.get_yt_dlp_options] *)
Definition get_yt_dlp_options (quality media_type : string) : YdlOpts :=
  let output_template := Py.path_join (DOWNLOAD_PATH cfg) "%(title)s.%(ext)s" in
  if String.eqb media_type "audio" then
    {| outtmpl := output_template;
       format := "bestaudio/best";
       postprocessors := Some ("FFmpegExtractAudio", "mp3", "320");
       merge_output_format := None;
       progress_hooks := false |}
  else
    let format_string :=
      if String.eqb quality "best" then
        "bestvideo[ext=mp4]+bestaudio[ext=m4a]/best[ext=mp4]/best"
      else if String.eqb quality "1080p" then
        "bestvideo[height<=1080][ext=mp4]+bestaudio[ext=m4a]/best[height<=1080][ext=mp4]/best"
      else if String.eqb quality "720p" then
        "bestvideo[height<=720][ext=mp4]+bestaudio[ext=m4a]/best[height<=720][ext=mp4]/best"
      else if String.eqb quality "480p" then
        "bestvideo[height<=480][ext=mp4]+bestaudio[ext=m4a]/best[height<=480][ext=mp4]/best"
      else "best[ext=mp4]/best" in
    {| outtmpl := output_template;
       format := format_string;
       postprocessors := None;
       merge_output_format := Some "mp4";
       progress_hooks := false |}.

(** [info.get('description', '')[:200]] *)
Definition description_of (info : Info) : exn + string :=
  match default (PStr "") (info !! "description") with
  | PStr s => inr (Py.slice_to 200 s)
  | _ => inl (TypeError "object is not subscriptable")
  end.

(** [info.get('filesize') or info.get('filesize_approx', 0)] *)
Definition estimated_filesize (info : Info) : pyval :=
  py_or (default PNone (info !! "filesize"))
        (default (PInt 0) (info !! "filesize_approx")).

(** The body of the [try] block of [download_media]. *)
Definition download_media_body (url quality media_type : string)
  : M DownloadResult :=
  let ydl_opts := get_yt_dlp_options quality media_type in
  info ← ydl_extract_info url ydl_opts false;
  let filesize := estimated_filesize info in
  filesize_mb ← lift (div_MB filesize);
  too_large ← lift (gt_int filesize (MAX_FILE_SIZE_MB cfg * 1024 * 1024));
  if too_large : bool then
    mret (DlFailure (SizeExceeds filesize_mb (MAX_FILE_SIZE_MB cfg)) (Some filesize_mb))
  else
    (* info['estimated_filesize_mb'] is set on the probe's dict, which
       the next assignment to [info] replaces *)
    info ← ydl_extract_info url ydl_opts true;
    prepared ← lift (prepare_filename (engine env) ydl_opts info);
    let filename :=
      if String.eqb media_type "audio"
      then Py.rsplit1_0 "." prepared +:+ ".mp3"
      else prepared in
    descr ← lift (description_of info);
    mret (DlSuccess
            {| filepath := filename;
               title := default (PStr "Unknown") (info !! "title");
               duration := default (PInt 0) (info !! "duration");
               thumbnail := default PNone (info !! "thumbnail");
               uploader := default (PStr "Unknown") (info !! "uploader");
               description := descr;
               filesize_mb := default (PInt 0) (info !! "estimated_filesize_mb") |}).

(** [MediaDownloader.download_media] *)
Definition download_media (url quality media_type : string) : M DownloadResult :=
  try_except (download_media_body url quality media_type)
    (fun e =>
       logger_error ("Download error: " +:+ exn_str e);;
       mret (DlFailure (ExnText (exn_str e)) None)).

(** *** Delivery *)

(** The caption of [send_media_file]; [duration] is divided and
    formatted with [:02d], which needs an integer. *)
Definition make_caption (result : Media) (file_size_mb : Q) : exn + Caption :=
  match duration result with
  | PInt d =>
      inr {| cap_title := title result; cap_uploader := uploader result;
             cap_minutes := d / 60; cap_seconds := d mod 60;
             cap_size_mb := file_size_mb |}
  | PFloat _ => inl (ValueError "Unknown format code 'd' for object of type 'float'")
  | _ => inl (TypeError "unsupported operand type(s) for //")
  end.

(** [send_media_file]; with or without a [message] attribute on the
    update the same reply call is made, on the message the update
    belongs to. *)
Definition send_media_file (update : Update) (filepath : string)
    (file_size_mb : Q) (result : Media) (media_type : string) : M unit :=
  caption ← lift (make_caption result file_size_mb);
  (if String.eqb media_type "audio" then
     open_rb filepath;;
     call (ReplyAudio filepath caption)
   else
     open_rb filepath;;
     call (ReplyVideo filepath caption));;
  (* Delete status message *)
  try_except (call DeleteMessage) (fun _ => mret tt).

(** *** Command handlers *)

Definition start_command (update : Update) : M unit :=
  call (ReplyText MsgWelcome None).

Definition help_command (update : Update) : M unit :=
  call (ReplyText (MsgHelp (MAX_FILE_SIZE_MB cfg)) None).

Definition quality_keyboard : Keyboard :=
  [ [ {| label := "Best Quality"; callback_data := "quality_best" |};
      {| label := "1080p"; callback_data := "quality_1080p" |} ];
    [ {| label := "720p"; callback_data := "quality_720p" |};
      {| label := "480p"; callback_data := "quality_480p" |} ] ].

Definition quality_command (update : Update) : M unit :=
  call (ReplyText MsgSelectQuality (Some quality_keyboard)).

Definition audio_command (update : Update) : M unit :=
  modify_user_data (set_media_type "audio");;
  call (ReplyText MsgAudioMode None).

Definition video_command (update : Update) : M unit :=
  modify_user_data (set_media_type "video");;
  ud ← get_user_data;
  let quality := default "best" (ud_quality ud) in
  call (ReplyText (MsgVideoMode quality) None).

(** *** Button callbacks *)

(** [del context.user_data['pending_file']] *)
Definition del_pending_file : M unit :=
  ud ← get_user_data;
  match ud_pending_file ud with
  | Some _ => modify_user_data (set_pending_file None)
  | None => raise (Exn "KeyError" "'pending_file'")
  end.

Definition button_callback (update : Update) : M unit :=
  data ← lift (query_data update);
  call AnswerQuery;;
  if Py.startswith data "quality_" then
    let quality := Py.remove_all "quality_" data in
    modify_user_data (set_quality quality);;
    call (EditText (MsgQualitySet quality) None)
  else if Py.startswith data "premium_" then
    if String.eqb data "premium_yes" then
      (* User has premium, proceed with upload *)
      modify_user_data (set_has_premium true);;
      ud ← get_user_data;
      match ud_pending_file ud with
      | Some pending =>
          call (EditText MsgUploading None);;
          try_except
            (send_media_file update (pf_filepath pending) (pf_file_size_mb pending)
                             (pf_result pending) (pf_media_type pending);;
             (* Clean up *)
             remove_if_exists (pf_filepath pending);;
             del_pending_file)
            (fun e => call (ReplyText (MsgUploadFailed (exn_str e)) None))
      | None => call (EditText MsgFileExpired None)
      end
    else if String.eqb data "premium_no" then
      (* User doesn't have premium *)
      ud ← get_user_data;
      let pending := ud_pending_file ud in
      (* the text is formatted from pending['file_size_mb'] *)
      size ← match pending with
             | Some p => mret (pf_file_size_mb p)
             | None => raise (TypeError "'NoneType' object is not subscriptable")
             end;
      call (EditText (MsgPremiumRequired size REGULAR_USER_LIMIT_MB) None);;
      (* Clean up pending file *)
      match pending with
      | Some p => remove_if_exists (pf_filepath p)
      | None => mret tt
      end;;
      ud ← get_user_data;
      match ud_pending_file ud with
      | Some _ => del_pending_file
      | None => mret tt
      end
    else mret tt
  else mret tt.

(** *** Message handler *)

(** [ALLOWED_USERS and ALLOWED_USERS[0]] *)
Definition whitelist_configured : bool :=
  match ALLOWED_USERS cfg with
  | [] => false
  | first :: _ => negb (String.eqb first "")
  end.

Definition premium_keyboard (url quality media_type : string) : Keyboard :=
  [ [ {| label := "I have Premium";
         callback_data :=
           "premium_yes|" +:+ url +:+ "|" +:+ quality +:+ "|" +:+ media_type |};
      {| label := "No Premium"; callback_data := "premium_no" |} ] ].

(** [file_size / (1024 * 1024)] for the integer of [os.path.getsize] *)
Definition size_in_mb (file_size : Z) : Q := Qmake file_size (Z.to_pos MB).

(** Lines 526-531: clean up downloaded file. *)
Definition cleanup_downloaded_file (filepath : string) : M unit :=
  try_except
    (remove_if_exists filepath)
    (fun e => logger_error ("Error removing file: " +:+ exn_str e)).

(** Lines 470-531: what is done with a downloaded file.  [continue] is
    [false] on the early [return] of the confirmation branch.  The
    quotient [file_size / (1024 * 1024)] of an integer by a power of
    two is exact, so the comparisons are those of rationals. *)
Definition deliver (update : Update) (url quality media_type : string)
    (user_has_premium : bool) (result : Media) : M unit :=
  let filepath := filepath result in
  file_size ← os_path_getsize filepath;
  let file_size_mb := size_in_mb file_size in
  continue ←
    (if Qgtb file_size_mb (inject_Z PREMIUM_USER_LIMIT_MB) then
       (* File too large even for premium *)
       call (EditText (MsgFileTooLarge file_size_mb PREMIUM_USER_LIMIT_MB) None);;
       mret true
     else if Qgtb file_size_mb (inject_Z REGULAR_USER_LIMIT_MB) then
       (* File requires Telegram Premium *)
       if user_has_premium then
         send_media_file update filepath file_size_mb result media_type;;
         mret true
       else
         call (EditText (MsgLargeFile file_size_mb REGULAR_USER_LIMIT_MB
                                      PREMIUM_USER_LIMIT_MB)
                        (Some (premium_keyboard url quality media_type)));;
         (* Store filepath temporarily for callback *)
         modify_user_data
           (set_pending_file
              (Some {| pf_filepath := filepath; pf_file_size_mb := file_size_mb;
                       pf_result := result; pf_media_type := media_type |}));;
         mret false
     else
       (* File is under regular limit, send normally *)
       send_media_file update filepath file_size_mb result media_type;;
       mret true);
  if continue : bool then cleanup_downloaded_file filepath
  else mret tt.

(** Lines 410-540: the handler once the sender has passed the
    allow-list check. *)
Definition process_message (update : Update) : M unit :=
  message_text ← lift (message_text update);
  let urls := findall_urls message_text in
  match urls with
  | [] => call (ReplyText MsgNoUrl None)
  | url :: _ =>
      ud ← get_user_data;
      let quality := default "best" (ud_quality ud) in
      let media_type := default "video" (ud_media_type ud) in
      if negb (is_valid_url url) then call (ReplyText MsgInvalidUrl None)
      else
        let user_has_premium := default false (ud_has_premium ud) in
        call (ReplyText (MsgProcessing media_type (Py.slice_to 50 url) quality) None);;
        call (SendChatAction (if String.eqb media_type "video"
                              then "upload_video" else "upload_audio"));;
        try_except
          (result ← download_media url quality media_type;
           match result with
           | DlFailure error _ => call (EditText (MsgDownloadFailed error) None)
           | DlSuccess media =>
               call (EditText MsgDownloadComplete None);;
               deliver update url quality media_type user_has_premium media
           end)
          (fun e =>
             logger_error ("Error processing media: " +:+ exn_str e);;
             call (EditText (MsgErrorOccurred (Py.slice_to 200 (exn_str e))) None))
  end.

Definition handle_message (update : Update) : M unit :=
  (* Check if user is allowed (if whitelist is configured) *)
  if whitelist_configured
     && negb (Py.mem (str_of_int (effective_user_id update)) (ALLOWED_USERS cfg))
  then call (ReplyText MsgUnauthorized None)
  else process_message update.

(** *** Registration and dispatch *)

Definition error_handler (update : Update) (error : exn) : M unit :=
  logger_error ("Update caused error " +:+ exn_str error);;
  call (ReplyText MsgGenericError None).

Inductive Handler :=
| CommandHandler (command : string) (callback : Update -> M unit)
| CallbackQueryHandler (callback : Update -> M unit)
| MessageHandler (callback : Update -> M unit).  (* filters.TEXT & ~filters.COMMAND *)

(** The handlers [main] adds, in order. *)
Definition handlers : list Handler :=
  [ CommandHandler "start" start_command;
    CommandHandler "help" help_command;
    CommandHandler "quality" quality_command;
    CommandHandler "audio" audio_command;
    CommandHandler "video" video_command;
    CallbackQueryHandler button_callback;
    MessageHandler handle_message ].

Definition handler_for (h : Handler) (update : Update) : option (Update -> M unit) :=
  match h, update with
  | CommandHandler c cb, Command _ n => if String.eqb c n then Some cb else None
  | CallbackQueryHandler cb, CallbackQuery _ _ => Some cb
  | MessageHandler cb, TextMessage _ _ => Some cb
  | _, _ => None
  end.

(** The callback of the first handler that accepts the update. *)
Fixpoint find_handler (hs : list Handler) (update : Update)
  : option (Update -> M unit) :=
  match hs with
  | [] => None
  | h :: hs' =>
      match handler_for h update with
      | Some cb => Some cb
      | None => find_handler hs' update
      end
  end.

(** The callback of the update, run. *)
Definition dispatch (update : Update) : M unit :=
  match find_handler handlers update with
  | Some cb => cb update
  | None => mret tt
  end.

(** One update through the application: the handler runs and an
    exception it lets out goes to [error_handler]. *)
Definition process_update (update : Update) : M unit :=
  try_except (dispatch update) (error_handler update).

(** [main]: no application is built with the placeholder token. *)
Definition main : option (list Handler) :=
  if String.eqb (BOT_TOKEN cfg) "YOUR_BOT_TOKEN_HERE" then None
  else Some handlers.

End Bot.

(** ** Vocabulary of the properties *)

(** The first engine call of [download_media] that raises, raises [e]:
    the probe, or (after a probe within the limit) the download, or
    after both the computation of the file name. *)
Definition engine_raises (cfg : Config) (env : Env)
    (url quality media_type : string) (e : exn) : Prop :=
  let opts := get_yt_dlp_options cfg quality media_type in
  extract_info (engine env) url opts false = inl e
  \/ exists info mb,
       extract_info (engine env) url opts false = inr info
       /\ div_MB (estimated_filesize info) = inr mb
       /\ gt_int (estimated_filesize info) (MAX_FILE_SIZE_MB cfg * 1024 * 1024)
          = inr false
       /\ (extract_info (engine env) url opts true = inl e
           \/ exists info',
                extract_info (engine env) url opts true = inr info'
                /\ prepare_filename (engine env) opts info' = inl e).

(** The configuration with another allow-list. *)
Definition with_allowed_users (allowed : list string) (cfg : Config) : Config :=
  {| BOT_TOKEN := BOT_TOKEN cfg; DOWNLOAD_PATH := DOWNLOAD_PATH cfg;
     MAX_FILE_SIZE_MB := MAX_FILE_SIZE_MB cfg; ALLOWED_USERS := allowed |}.

(** The reply call by which [send_media_file] sends a file. *)
Definition send_call (media_type filepath : string) (c : Caption) : Call :=
  if String.eqb media_type "audio" then ReplyAudio filepath c
  else ReplyVideo filepath c.

(** The record [handle_message] stores for a file awaiting confirmation. *)
Definition pending_record (result : Media) (file_size_mb : Q) (media_type : string)
  : PendingFile :=
  {| pf_filepath := filepath result; pf_file_size_mb := file_size_mb;
     pf_result := result; pf_media_type := media_type |}.

(** The calls made between two worlds of one run. *)
Definition new_calls (w w' : World) : list Call :=
  drop (length (calls w)) (calls w').

(** Does the call reach the user (a message, an edit, a file, a chat
    action, a deletion, an answer to a button press)? *)
Definition is_user_visible (c : Call) : bool :=
  match c with
  | OsRemove _ | LogError _ | ExtractInfo _ _ _ => false
  | _ => true
  end.

(** [s.endswith(suffix)] *)
Definition ends_with (s suffix : string) : bool :=
  String.eqb (Py.slice_from (String.length s - String.length suffix) s) suffix.

(** Every character of [s] satisfies [p]. *)
Fixpoint all_chars (p : ascii -> bool) (s : string) : bool :=
  match s with
  | EmptyString => true
  | String c s' => p c && all_chars p s'
  end.

(** [c.lower()] and [s.lower()] on ASCII *)
Definition ascii_lower (c : ascii) : ascii :=
  if Re.between 65 90 c then ascii_of_nat (nat_of_ascii c + 32) else c.

Fixpoint str_lower (s : string) : string :=
  match s with
  | EmptyString => EmptyString
  | String c s' => String (ascii_lower c) (str_lower s')
  end.

(** [P] holds of every character class of the expression. *)
Fixpoint classes_all (P : (ascii -> bool) -> Prop) (r : Re.regex) : Prop :=
  match r with
  | Re.Class p => P p
  | Re.Seq a b | Re.Alt a b => classes_all P a /\ classes_all P b
  | Re.Star a | Re.Rep a _ _ => classes_all P a
  | Re.Void | Re.Eps => True
  end.


(** A character that does not separate two entries of the allow-list. *)
Definition not_comma (c : ascii) : bool := negb (Ascii.eqb c ",").

(** ** A concrete deployment, for running the handlers *)

Module Demo.

Definition cfg : Config :=
  {| BOT_TOKEN := "123:abc"; DOWNLOAD_PATH := "./downloads";
     MAX_FILE_SIZE_MB := 2048; ALLOWED_USERS := allowed_users_of_env None |}.

(** The same deployment behind an allow-list. *)
Definition cfg_allowing (v : string) : Config :=
  {| BOT_TOKEN := "123:abc"; DOWNLOAD_PATH := "./downloads";
     MAX_FILE_SIZE_MB := 2048; ALLOWED_USERS := allowed_users_of_env (Some v) |}.

Definition info_of (name : string) (estimate : Z) : Info :=
  {[ "title" := PStr name; "duration" := PInt 125;
     "uploader" := PStr "someone"; "filesize" := PInt estimate ]}.

(** The resources the engine knows, as name, estimated bytes and bytes
    on disk: a 10 MB clip, films of 120 and 130 MB, an archive
    announced at 3000 MB and a stream of 2500 MB whose size the probe
    does not know.  Any other URL is unsupported. *)
Definition catalogue (url : string) : option (string * Z * Z) :=
  if String.eqb url "https://example.com/clip" then Some ("clip", 10 * MB, 10 * MB)
  else if String.eqb url "https://example.com/film" then Some ("film", 120 * MB, 120 * MB)
  else if String.eqb url "https://example.com/film2" then Some ("film2", 130 * MB, 130 * MB)
  else if String.eqb url "https://example.com/archive" then Some ("archive", 3000 * MB, 3000 * MB)
  else if String.eqb url "https://example.com/stream" then Some ("stream", 0, 2500 * MB)
  else None.

Definition path_of (name : string) : string := "./downloads/" +:+ name +:+ ".mp4".

Definition ydl : Engine :=
  {| extract_info := fun url _ _ =>
       match catalogue url with
       | Some (name, estimate, _) => inr (info_of name estimate)
       | None => inl (Exn "DownloadError" "Unsupported URL")
       end;
     download_writes := fun url _ =>
       match catalogue url with
       | Some (name, _, bytes) => [(path_of name, bytes)]
       | None => []
       end;
     prepare_filename := fun _ info =>
       match info !! "title" with
       | Some (PStr name) => inr (path_of name)
       | _ => inl (Exn "KeyError" "'title'")
       end |}.

(** Every transport and filesystem call succeeds. *)
Definition env : Env := {| fails := fun _ => None; engine := ydl |}.

(** The transport refuses to send files. *)
Definition env_send_fails : Env :=
  {| fails := fun c => if is_send c then Some (Exn "NetworkError" "timed out") else None;
     engine := ydl |}.

Definition w0 : World :=
  {| files := ∅; user_data := empty_user_data; calls := [] |}.

(** The 120 MB film is on disk, nothing is pending. *)
Definition w_film : World :=
  {| files := {[ path_of "film" := 120 * MB ]};
     user_data := empty_user_data; calls := [] |}.

(** An engine that answers every probe with [probe] and every download
    with [dl], leaving the files [writes] under the name [name]. *)
Definition ydl_of (probe dl : exn + Info) (writes : list (string * Z))
    (name : exn + string) : Engine :=
  {| extract_info := fun _ _ d => if d : bool then dl else probe;
     download_writes := fun _ _ => writes;
     prepare_filename := fun _ _ => name |}.

Definition env_of (e : Engine) : Env := {| fails := fun _ => None; engine := e |}.

(** The transport and the disk work but for the calls [bad] picks. *)
Definition env_failing (bad : Call -> bool) : Env :=
  {| fails := fun c => if bad c then Some (Exn "NetworkError" "timed out") else None;
     engine := ydl |}.

(** A 2500 MB stream on disk. *)
Definition stream : Media :=
  {| filepath := path_of "stream"; title := PStr "stream"; duration := PInt 1;
     thumbnail := PNone; uploader := PStr "someone"; description := "";
     filesize_mb := PInt 0 |}.

Definition w_stream : World :=
  {| files := {[ path_of "stream" := 2500 * MB ]};
     user_data := empty_user_data; calls := [] |}.



Definition film : Media :=
  {| filepath := path_of "film"; title := PStr "film"; duration := PInt 125;
     thumbnail := PNone; uploader := PStr "someone"; description := "";
     filesize_mb := PInt 0 |}.

End Demo.

(** * Properties *)

(** ** Arithmetic of sizes *)

Lemma Qgtb_true (a b : Q) : (b < a)%Q -> Qgtb a b = true.
Proof.
  intros H. unfold Qgtb. destruct (Qle_bool a b) eqn:E; [|reflexivity].
  apply Qle_bool_iff in E. exfalso. exact (Qlt_not_le _ _ H E).
Qed.

Lemma Qgtb_false (a b : Q) : (a <= b)%Q -> Qgtb a b = false.
Proof.
  intros H. unfold Qgtb. apply Qle_bool_iff in H. now rewrite H.
Qed.

(** An estimate above the limit in MB is above the limit in bytes. *)
Lemma gt_int_of_div_MB (x : pyval) (mb : Q) (limit : Z) :
  div_MB x = inr mb ->
  (inject_Z limit < mb)%Q ->
  gt_int x (limit * 1024 * 1024) = inr true.
Proof.
  destruct x as [|n|q|s]; simpl; intros E H; try discriminate.
  - injection E as <-. f_equal. apply Z.ltb_lt.
    unfold Qlt in H. simpl in H. unfold MB in H. simpl in H. lia.
  - injection E as <-. f_equal. apply Qgtb_true.
    destruct q as [a b]. unfold Qlt, Qdiv, Qmult, Qinv, inject_Z, MB in *.
    simpl in *. lia.
Qed.

(** ** Download orchestrator *)

Section Downloader.

Context (cfg : Config) (env : Env).
Context (url quality media_type : string).

(** What the [except] clause makes of an exception of the body. *)
Lemma download_media_except (w w1 : World) (e : exn) :
  download_media_body cfg env url quality media_type w = (Raise e, w1) ->
  download_media cfg env url quality media_type w
  = (Return (DlFailure (ExnText (exn_str e)) None),
     record (LogError ("Download error: " +:+ exn_str e)) w1).
Proof.
  intros H. unfold download_media, try_except. rewrite H. reflexivity.
Qed.

Lemma download_media_total (w : World) :
  exists r w', download_media cfg env url quality media_type w = (Return r, w').
Proof.
  unfold download_media, try_except.
  destruct (download_media_body cfg env url quality media_type w) as [[r|e] w1].
  - now exists r, w1.
  - eexists _, _. reflexivity.
Qed.

Lemma engine_raises_body (w : World) (e : exn) :
  engine_raises cfg env url quality media_type e ->
  exists w1, download_media_body cfg env url quality media_type w = (Raise e, w1).
Proof.
  unfold download_media_body, ydl_extract_info, mbind, M_bind, engine_raises.
  intros [H | (info & mb & Hp & Hmb & Hgt & H)].
  - rewrite H. eauto.
  - rewrite Hp, Hmb, Hgt. simpl.
    destruct H as [H | (info' & Hd & H)].
    + rewrite H. eauto.
    + rewrite Hd. simpl. rewrite H. simpl. eauto.
Qed.

End Downloader.

(** C5: when the probe's estimate, in MB, is strictly above
    [MAX_FILE_SIZE_MB], [download_media] returns the failure dict with
    the size error and the probe is the one engine call made: the
    download step is not invoked. *)
Theorem download_media_rejects_oversize
    (cfg : Config) (env : Env) (url quality media_type : string)
    (w : World) (info : Info) (mb : Q) :
  extract_info (engine env) url (get_yt_dlp_options cfg quality media_type) false
  = inr info ->
  div_MB (estimated_filesize info) = inr mb ->
  (inject_Z (MAX_FILE_SIZE_MB cfg) < mb)%Q ->
  download_media cfg env url quality media_type w
  = (Return (DlFailure (SizeExceeds mb (MAX_FILE_SIZE_MB cfg)) (Some mb)),
     record (ExtractInfo url (get_yt_dlp_options cfg quality media_type) false) w)
  /\ existsb is_engine_download
       (calls (download_media cfg env url quality media_type w).2)
     = existsb is_engine_download (calls w).
Proof.
  intros Hp Hmb Hlt.
  assert (E : download_media cfg env url quality media_type w
              = (Return (DlFailure (SizeExceeds mb (MAX_FILE_SIZE_MB cfg)) (Some mb)),
                 record (ExtractInfo url (get_yt_dlp_options cfg quality media_type)
                                     false) w)).
  { unfold download_media, try_except, download_media_body, ydl_extract_info,
      mbind, M_bind.
    rewrite Hp, Hmb. simpl.
    rewrite (gt_int_of_div_MB _ _ _ Hmb Hlt). reflexivity. }
  split; [exact E|].
  rewrite E. simpl. rewrite existsb_app. simpl. now rewrite !orb_false_r.
Qed.

Lemma download_media_rejects_oversize_witness :
  download_media Demo.cfg Demo.env "https://example.com/archive" "best" "video" Demo.w0
  = (Return (DlFailure (SizeExceeds (Qmake (3000 * MB) (Z.to_pos MB)) 2048)
                       (Some (Qmake (3000 * MB) (Z.to_pos MB)))),
     record (ExtractInfo "https://example.com/archive"
               (get_yt_dlp_options Demo.cfg "best" "video") false) Demo.w0)
  /\ existsb is_engine_download
       (calls (download_media Demo.cfg Demo.env "https://example.com/archive"
                 "best" "video" Demo.w0).2)
     = existsb is_engine_download (calls Demo.w0).
Proof.
  apply (download_media_rejects_oversize Demo.cfg Demo.env
           "https://example.com/archive" "best" "video" Demo.w0
           (Demo.info_of "archive" (3000 * MB))).
  - reflexivity.
  - reflexivity.
  - reflexivity.
Defined.

(** C6: [download_media] always returns a dict, and when the extraction
    engine raises, at the probe, at the download or at the file name, the
    dict is the failure one with the exception's message as its error. *)
Theorem download_media_catches_engine_errors
    (cfg : Config) (env : Env) (url quality media_type : string) (w : World) :
  (exists r w', download_media cfg env url quality media_type w = (Return r, w'))
  /\ forall e, engine_raises cfg env url quality media_type e ->
       exists w', download_media cfg env url quality media_type w
                  = (Return (DlFailure (ExnText (exn_str e)) None), w').
Proof.
  split.
  - apply download_media_total.
  - intros e H.
    destruct (engine_raises_body cfg env url quality media_type w e H) as [w1 Hb].
    eexists. exact (download_media_except cfg env url quality media_type w w1 e Hb).
Qed.

Lemma download_media_catches_engine_errors_witness :
  exists w', download_media Demo.cfg Demo.env "https://example.com/gone" "best" "video"
               Demo.w0
             = (Return (DlFailure (ExnText "Unsupported URL") None), w').
Proof.
  apply (proj2 (download_media_catches_engine_errors Demo.cfg Demo.env
                  "https://example.com/gone" "best" "video" Demo.w0)
           (Exn "DownloadError" "Unsupported URL")).
  left. reflexivity.
Defined.

(** Unfolding of the handler monad. *)
Ltac run :=
  unfold mbind, M_bind, mret, M_ret, lift, raise, call, try_except,
    modify_user_data, get_user_data, logger_error, open_rb,
    os_path_getsize; simpl.

(** Projections of an explicit world. *)
Ltac world := cbn [files user_data calls].

(** ** External calls and cleanup *)

Section Cleanup.

Context (env : Env).

Lemma call_ok (c : Call) (w : World) :
  fails env c = None -> call env c w = (Return tt, record c w).
Proof. intros F. unfold call. now rewrite F. Qed.

Lemma call_raises (c : Call) (e : exn) (w : World) :
  fails env c = Some e -> call env c w = (Raise e, record c w).
Proof. intros F. unfold call. now rewrite F. Qed.

Lemma os_path_exists_absent (p : string) (w : World) :
  files w !! p = None -> os_path_exists p w = (Return false, w).
Proof.
  intros H. unfold os_path_exists. rewrite H.
  rewrite bool_decide_eq_false_2; [reflexivity|]. apply is_Some_None.
Qed.

Lemma os_path_exists_present (p : string) (w : World) (n : Z) :
  files w !! p = Some n -> os_path_exists p w = (Return true, w).
Proof.
  intros H. unfold os_path_exists. rewrite H.
  rewrite bool_decide_eq_true_2; [reflexivity|]. eauto.
Qed.

Lemma remove_if_exists_absent (p : string) (w : World) :
  files w !! p = None -> remove_if_exists env p w = (Return tt, w).
Proof.
  intros H. unfold remove_if_exists, mbind, M_bind.
  now rewrite (os_path_exists_absent p w H).
Qed.

Lemma remove_if_exists_present (p : string) (w : World) (n : Z) :
  files w !! p = Some n -> remove_if_exists env p w = os_remove env p w.
Proof.
  intros H. unfold remove_if_exists, mbind, M_bind.
  now rewrite (os_path_exists_present p w n H).
Qed.

(** A removal that goes through takes the file off the disk. *)
Lemma os_remove_ok (p : string) (w : World) (n : Z) :
  files w !! p = Some n -> fails env (OsRemove p) = None ->
  os_remove env p w
  = (Return tt, {| files := delete p (files w); user_data := user_data w;
                   calls := calls w ++ [OsRemove p] |}).
Proof.
  intros H F. unfold os_remove. now rewrite H, F.
Qed.

(** The three ways the cleanup of [handle_message] can go; none raises. *)
Lemma cleanup_downloaded_file_cases (p : string) (w : World) :
  (files w !! p = None /\ cleanup_downloaded_file env p w = (Return tt, w))
  \/ (fails env (OsRemove p) = None
      /\ cleanup_downloaded_file env p w
         = (Return tt, {| files := delete p (files w); user_data := user_data w;
                          calls := calls w ++ [OsRemove p] |}))
  \/ (exists e, fails env (OsRemove p) = Some e
      /\ cleanup_downloaded_file env p w
         = (Return tt, record (LogError ("Error removing file: " +:+ exn_str e))
                         (record (OsRemove p) w))).
Proof.
  unfold cleanup_downloaded_file, try_except.
  destruct (files w !! p) as [n|] eqn:H.
  - rewrite (remove_if_exists_present p w n H). unfold os_remove. rewrite H.
    destruct (fails env (OsRemove p)) as [e|] eqn:F.
    + right. right. exists e. split; reflexivity.
    + right. left. split; reflexivity.
  - left. rewrite (remove_if_exists_absent p w H). split; reflexivity.
Qed.

(** The cleanup returns, touches neither the conversation nor the
    transport, and attempts the removal when the file is there. *)
Lemma cleanup_downloaded_file_effect (p : string) (w : World) :
  exists w' rest,
    cleanup_downloaded_file env p w = (Return tt, w')
    /\ calls w' = calls w ++ rest
    /\ existsb is_send rest = false
    /\ user_data w' = user_data w
    /\ (is_Some (files w !! p) -> existsb (is_remove_of p) rest = true).
Proof.
  destruct (cleanup_downloaded_file_cases p w)
    as [[H ->] | [[F ->] | (e & F & ->)]].
  - exists w, []. rewrite app_nil_r. repeat split; try reflexivity.
    rewrite H. intros [? ?]. discriminate.
  - eexists _, [OsRemove p]. simpl. rewrite String.eqb_refl. repeat split.
  - eexists _, [OsRemove p; LogError _]. simpl. rewrite String.eqb_refl.
    split; [reflexivity|]. simpl. rewrite <- app_assoc. repeat split.
Qed.

End Cleanup.

(** ** Delivery *)

Section Delivery.

Context (env : Env).

(** [send_media_file] when the caption is built and the file is there:
    the send is the first call, and its failure is the failure of the
    whole helper. *)
Lemma send_media_file_run (update : Update) (media : Media) (mb : Q)
    (media_type : string) (w : World) (c : Caption) (n : Z) :
  make_caption media mb = inr c ->
  files w !! filepath media = Some n ->
  send_media_file env update (filepath media) mb media media_type w
  = match fails env (send_call media_type (filepath media) c) with
    | Some e => (Raise e, record (send_call media_type (filepath media) c) w)
    | None =>
        (Return tt, record DeleteMessage
                      (record (send_call media_type (filepath media) c) w))
    end.
Proof.
  intros Hc Hf. unfold send_media_file, send_call. run. rewrite Hc. simpl.
  destruct (String.eqb media_type "audio"); simpl; rewrite Hf;
    match goal with |- context [fails env ?c] => destruct (fails env c) end;
    simpl; try reflexivity;
    destruct (fails env DeleteMessage); reflexivity.
Qed.


(** The two size tests of [deliver], from the position of the size. *)
Lemma tier_above_premium (mb : Q) :
  (inject_Z PREMIUM_USER_LIMIT_MB < mb)%Q ->
  Qgtb mb (inject_Z PREMIUM_USER_LIMIT_MB) = true.
Proof. apply Qgtb_true. Qed.

Lemma tier_between (mb : Q) :
  (inject_Z REGULAR_USER_LIMIT_MB < mb)%Q ->
  (mb <= inject_Z PREMIUM_USER_LIMIT_MB)%Q ->
  Qgtb mb (inject_Z PREMIUM_USER_LIMIT_MB) = false
  /\ Qgtb mb (inject_Z REGULAR_USER_LIMIT_MB) = true.
Proof. intros H1 H2. split; [now apply Qgtb_false | now apply Qgtb_true]. Qed.

Lemma tier_regular (mb : Q) :
  (mb <= inject_Z REGULAR_USER_LIMIT_MB)%Q ->
  Qgtb mb (inject_Z PREMIUM_USER_LIMIT_MB) = false
  /\ Qgtb mb (inject_Z REGULAR_USER_LIMIT_MB) = false.
Proof.
  intros H. split; apply Qgtb_false; [|exact H].
  eapply Qle_trans; [exact H|].
  unfold Qle, REGULAR_USER_LIMIT_MB, PREMIUM_USER_LIMIT_MB. simpl. lia.
Qed.

(** On the two sending branches [deliver] is the send followed by the
    cleanup, and the send is its first call once the caption is built. *)
Lemma deliver_sends (update : Update) (url quality media_type : string)
    (user_has_premium : bool) (media : Media) (w : World) (n : Z) :
  files w !! filepath media = Some n ->
  Qgtb (size_in_mb n) (inject_Z PREMIUM_USER_LIMIT_MB) = false ->
  (Qgtb (size_in_mb n) (inject_Z REGULAR_USER_LIMIT_MB) = true ->
   user_has_premium = true) ->
  let r := deliver env update url quality media_type user_has_premium media w in
  r = (send_media_file env update (filepath media) (size_in_mb n) media media_type;;
       cleanup_downloaded_file env (filepath media)) w
  /\ forall c, make_caption media (size_in_mb n) = inr c ->
       exists rest,
         calls r.2
         = calls w ++ send_call media_type (filepath media) c :: rest.
Proof.
  intros Hf H1 H2 r.
  assert (E : r = (send_media_file env update (filepath media) (size_in_mb n)
                     media media_type;;
                   cleanup_downloaded_file env (filepath media)) w).
  { subst r. unfold deliver. run. rewrite Hf, H1.
    destruct (Qgtb (size_in_mb n) (inject_Z REGULAR_USER_LIMIT_MB)).
    - rewrite (H2 eq_refl).
      destruct (send_media_file env update (filepath media) (size_in_mb n)
                  media media_type w) as [[[]|e] w1]; reflexivity.
    - destruct (send_media_file env update (filepath media) (size_in_mb n)
                  media media_type w) as [[[]|e] w1]; reflexivity. }
  split; [exact E|].
  intros c Hc. rewrite E. run.
  rewrite (send_media_file_run update media (size_in_mb n) media_type w c n Hc Hf).
  destruct (fails env (send_call media_type (filepath media) c)) as [e|].
  - exists []. reflexivity.
  - destruct (cleanup_downloaded_file_effect env (filepath media)
                (record DeleteMessage
                   (record (send_call media_type (filepath media) c) w)))
      as (w' & rest & -> & Hcalls & _).
    simpl. rewrite Hcalls. simpl. exists (DeleteMessage :: rest).
    now rewrite <- !app_assoc.
Qed.

(** On the confirmation branch [deliver] shows the prompt and, when the
    prompt went through, stores the pending record and returns. *)
Lemma deliver_prompts (update : Update) (url quality media_type : string)
    (media : Media) (w : World) (n : Z) :
  files w !! filepath media = Some n ->
  (inject_Z REGULAR_USER_LIMIT_MB < size_in_mb n)%Q ->
  (size_in_mb n <= inject_Z PREMIUM_USER_LIMIT_MB)%Q ->
  let prompt :=
    EditText (MsgLargeFile (size_in_mb n) REGULAR_USER_LIMIT_MB PREMIUM_USER_LIMIT_MB)
             (Some (premium_keyboard url quality media_type)) in
  deliver env update url quality media_type false media w
  = match fails env prompt with
    | Some e => (Raise e, record prompt w)
    | None =>
        (Return tt,
         {| files := files w;
            user_data :=
              set_pending_file
                (Some (pending_record media (size_in_mb n) media_type)) (user_data w);
            calls := calls w ++ [prompt] |})
    end.
Proof.
  intros Hf H1 H2 prompt. destruct (tier_between _ H1 H2) as [E1 E2].
  unfold deliver. run. rewrite Hf, E1, E2. simpl. fold prompt.
  destruct (fails env prompt); reflexivity.
Qed.

(** C1: for a downloaded file that is on disk, what [handle_message]
    does with it is fixed by its size in MB, the two limits and the
    premium flag: above 2048 the size error is shown and no send is
    made; between the limits with the flag set, and at or below 50, the
    file is sent at once; between the limits with the flag unset the
    two-button prompt is the only call, the file stays on disk and the
    pending record is stored. *)
Theorem deliver_tier_policy
    (update : Update) (url quality media_type : string) (user_has_premium : bool)
    (media : Media) (w : World) (n : Z) :
  files w !! filepath media = Some n ->
  let mb := size_in_mb n in
  let fp := filepath media in
  let prompt :=
    EditText (MsgLargeFile mb REGULAR_USER_LIMIT_MB PREMIUM_USER_LIMIT_MB)
             (Some (premium_keyboard url quality media_type)) in
  let r := deliver env update url quality media_type user_has_premium media w in
  ((inject_Z PREMIUM_USER_LIMIT_MB < mb)%Q ->
     exists rest,
       calls r.2
       = calls w ++ EditText (MsgFileTooLarge mb PREMIUM_USER_LIMIT_MB) None :: rest
       /\ existsb is_send rest = false
       /\ user_data r.2 = user_data w)
  /\ ((inject_Z REGULAR_USER_LIMIT_MB < mb)%Q ->
      (mb <= inject_Z PREMIUM_USER_LIMIT_MB)%Q ->
      user_has_premium = true ->
        r = (send_media_file env update fp mb media media_type;;
             cleanup_downloaded_file env fp) w
        /\ forall c, make_caption media mb = inr c ->
             exists rest, calls r.2 = calls w ++ send_call media_type fp c :: rest)
  /\ ((inject_Z REGULAR_USER_LIMIT_MB < mb)%Q ->
      (mb <= inject_Z PREMIUM_USER_LIMIT_MB)%Q ->
      user_has_premium = false ->
        calls r.2 = calls w ++ [prompt]
        /\ map label (concat (premium_keyboard url quality media_type))
           = ["I have Premium"; "No Premium"]
        /\ files r.2 = files w
        /\ (fails env prompt = None ->
            r.1 = Return tt
            /\ ud_pending_file (user_data r.2)
               = Some (pending_record media mb media_type)))
  /\ ((mb <= inject_Z REGULAR_USER_LIMIT_MB)%Q ->
        r = (send_media_file env update fp mb media media_type;;
             cleanup_downloaded_file env fp) w
        /\ forall c, make_caption media mb = inr c ->
             exists rest, calls r.2 = calls w ++ send_call media_type fp c :: rest).
Proof.
  intros Hf mb fp prompt r. split; [|split; [|split]].
  - intros H. apply tier_above_premium in H.
    subst r. unfold deliver. run. rewrite Hf. fold mb. rewrite H. simpl.
    destruct (fails env (EditText (MsgFileTooLarge mb PREMIUM_USER_LIMIT_MB) None)).
    + exists []. simpl. auto.
    + destruct (cleanup_downloaded_file_effect env (filepath media)
                  (record (EditText (MsgFileTooLarge mb PREMIUM_USER_LIMIT_MB) None) w))
        as (w' & rest & -> & Hcalls & Hsend & Hud & _).
      exists rest. simpl. rewrite Hcalls, Hud. simpl.
      rewrite <- app_assoc. auto.
  - intros H1 H2 ->. destruct (tier_between mb H1 H2) as [E1 E2].
    apply (deliver_sends update url quality media_type true media w n Hf E1).
    reflexivity.
  - intros H1 H2 ->. subst r.
    rewrite (deliver_prompts update url quality media_type media w n Hf H1 H2).
    fold mb prompt. destruct (fails env prompt) eqn:F; simpl.
    + repeat split; try reflexivity; discriminate.
    + repeat split; reflexivity.
  - intros H. destruct (tier_regular mb H) as [E1 E2].
    apply (deliver_sends update url quality media_type user_has_premium media w n
             Hf E1).
    fold mb. rewrite E2. discriminate.
Qed.

End Delivery.

Lemma deliver_tier_policy_witness :
  calls (deliver Demo.env (TextMessage 7 "https://example.com/film")
           "https://example.com/film" "best" "video" false Demo.film Demo.w_film).2
  = calls Demo.w_film
    ++ [EditText (MsgLargeFile (size_in_mb (120 * MB)) REGULAR_USER_LIMIT_MB
                               PREMIUM_USER_LIMIT_MB)
                 (Some (premium_keyboard "https://example.com/film" "best" "video"))].
Proof.
  assert (Hf : files Demo.w_film !! filepath Demo.film = Some (120 * MB))
    by reflexivity.
  assert (H1 : (inject_Z REGULAR_USER_LIMIT_MB < size_in_mb (120 * MB))%Q)
    by reflexivity.
  assert (H2 : (size_in_mb (120 * MB) <= inject_Z PREMIUM_USER_LIMIT_MB)%Q)
    by (vm_compute; discriminate).
  exact (proj1 (proj1 (proj2 (proj2
           (deliver_tier_policy Demo.env (TextMessage 7 "https://example.com/film")
              "https://example.com/film" "best" "video" false Demo.film
              Demo.w_film (120 * MB) Hf))) H1 H2 eq_refl)).
Defined.

(** A failed send is the end of [deliver]: the exception leaves it with
    the send as the only call made, so the cleanup is not reached. *)
Lemma deliver_send_failure (env : Env) (update : Update)
    (url quality media_type : string) (user_has_premium : bool)
    (media : Media) (w : World) (n : Z) (c : Caption) (e : exn) :
  files w !! filepath media = Some n ->
  (size_in_mb n <= inject_Z REGULAR_USER_LIMIT_MB)%Q ->
  make_caption media (size_in_mb n) = inr c ->
  fails env (send_call media_type (filepath media) c) = Some e ->
  deliver env update url quality media_type user_has_premium media w
  = (Raise e, record (send_call media_type (filepath media) c) w).
Proof.
  intros Hf Hs Hc F. destruct (tier_regular _ Hs) as [E1 E2].
  destruct (deliver_sends env update url quality media_type user_has_premium
              media w n Hf E1) as [-> _].
  { rewrite E2. discriminate. }
  run.
  rewrite (send_media_file_run env update media (size_in_mb n) media_type w c n Hc Hf).
  now rewrite F.
Qed.

(** C3, at the failing input: the 10 MB clip is downloaded and the
    transport refuses the send.  The handler reports the error and
    returns; no removal of the file was attempted and the file is still
    on disk. *)
Theorem send_failure_skips_cleanup :
  let r := handle_message Demo.cfg Demo.env_send_fails
             (TextMessage 7 "get https://example.com/clip now") Demo.w0 in
  r.1 = Return tt
  /\ existsb is_send (calls r.2) = true
  /\ last (calls r.2) = Some (EditText (MsgErrorOccurred "timed out") None)
  /\ existsb (is_remove_of (Demo.path_of "clip")) (calls r.2) = false
  /\ files r.2 !! Demo.path_of "clip" = Some (10 * MB).
Proof. vm_compute. repeat split. Qed.

(** A file that needs confirmation takes the pending slot whatever the
    slot held: the disk is left as it was. *)
Lemma deliver_overwrites_pending (env : Env) (update : Update)
    (url quality media_type : string) (media : Media) (w : World) (n : Z) :
  files w !! filepath media = Some n ->
  (inject_Z REGULAR_USER_LIMIT_MB < size_in_mb n)%Q ->
  (size_in_mb n <= inject_Z PREMIUM_USER_LIMIT_MB)%Q ->
  fails env (EditText (MsgLargeFile (size_in_mb n) REGULAR_USER_LIMIT_MB
                                    PREMIUM_USER_LIMIT_MB)
                      (Some (premium_keyboard url quality media_type))) = None ->
  let r := deliver env update url quality media_type false media w in
  files r.2 = files w
  /\ ud_pending_file (user_data r.2)
     = Some (pending_record media (size_in_mb n) media_type)
  /\ forall p, existsb (is_remove_of p) (calls r.2)
               = existsb (is_remove_of p) (calls w).
Proof.
  intros Hf H1 H2 F r. subst r.
  rewrite (deliver_prompts env update url quality media_type media w n Hf H1 H2).
  rewrite F. simpl. repeat split.
  intros p. rewrite existsb_app. simpl. now rewrite !orb_false_r.
Qed.

(** C4, at the failing input: two films of 120 and 130 MB are requested
    one after the other without premium, then "No Premium" is pressed.
    The second download takes the pending slot while the first film is
    on disk and no removal of it is attempted; after the answer the slot
    is empty and the first film is still on disk. *)
Theorem pending_overwrite_leaks_first_file :
  let w1 := (handle_message Demo.cfg Demo.env
               (TextMessage 7 "https://example.com/film") Demo.w0).2 in
  let w2 := (handle_message Demo.cfg Demo.env
               (TextMessage 7 "https://example.com/film2") w1).2 in
  let w3 := (button_callback Demo.env (CallbackQuery 7 "premium_no") w2).2 in
  (pf_filepath <$> ud_pending_file (user_data w1)) = Some (Demo.path_of "film")
  /\ (pf_filepath <$> ud_pending_file (user_data w2)) = Some (Demo.path_of "film2")
  /\ existsb (is_remove_of (Demo.path_of "film")) (calls w2) = false
  /\ files w2 !! Demo.path_of "film" = Some (120 * MB)
  /\ ud_pending_file (user_data w3) = None
  /\ existsb (is_remove_of (Demo.path_of "film")) (calls w3) = false
  /\ files w3 !! Demo.path_of "film" = Some (120 * MB)
  /\ files w3 !! Demo.path_of "film2" = None.
Proof. vm_compute. repeat split. Qed.

(** ** Confirmation buttons *)

(** "No Premium" with a pending file and a working transport: the
    rejection text is shown, the file is removed and the slot emptied. *)
Lemma premium_no_resolves (env : Env) (uid : Z) (w : World) (p : PendingFile) (n : Z) :
  ud_pending_file (user_data w) = Some p ->
  files w !! pf_filepath p = Some n ->
  (forall c, fails env c = None) ->
  button_callback env (CallbackQuery uid "premium_no") w
  = (Return tt,
     {| files := delete (pf_filepath p) (files w);
        user_data := set_pending_file None (user_data w);
        calls := calls w ++ [AnswerQuery;
                             EditText (MsgPremiumRequired (pf_file_size_mb p)
                                                          REGULAR_USER_LIMIT_MB) None;
                             OsRemove (pf_filepath p)] |}).
Proof.
  intros Hp Hf F. unfold button_callback, del_pending_file. run. unfold record.
  rewrite !F. world. rewrite Hp. world. rewrite F.
  rewrite (remove_if_exists_present env (pf_filepath p) _ n) by exact Hf.
  unfold os_remove, record. world. rewrite Hf, F. world. rewrite Hp.
  world. rewrite Hp. world. rewrite <- !app_assoc. reflexivity.
Qed.


(** C2, at the failing input: the "I have Premium" button of the prompt
    carries the payload [premium_yes|url|quality|media_type], which is
    not ['premium_yes'].  Pressing it is answered and nothing else:
    whatever is pending, nothing is sent, the disk and the pending slot
    are as before. *)
Theorem premium_yes_button_does_nothing
    (env : Env) (uid : Z) (url quality media_type : string) (w : World) :
  exists yes no,
    premium_keyboard url quality media_type = [[yes; no]]
    /\ label yes = "I have Premium"
    /\ (button_callback env (CallbackQuery uid (callback_data yes)) w).2
       = record AnswerQuery w.
Proof.
  eexists _, _. split; [reflexivity|]. split; [reflexivity|].
  unfold button_callback. run.
  destruct (fails env AnswerQuery); reflexivity.
Qed.

(** C8: once the file is gone the cleanup step, in the message handler
    and in the button handler alike, returns without an exception and
    without effect; so a second cleanup after one that removed the file
    returns too. *)
Theorem cleanup_idempotent (env : Env) (filepath : string) (w : World) :
  (files w !! filepath = None ->
     cleanup_downloaded_file env filepath w = (Return tt, w)
     /\ remove_if_exists env filepath w = (Return tt, w))
  /\ (fails env (OsRemove filepath) = None ->
      let w1 := (cleanup_downloaded_file env filepath w).2 in
      files w1 !! filepath = None
      /\ cleanup_downloaded_file env filepath w1 = (Return tt, w1)
      /\ remove_if_exists env filepath w1 = (Return tt, w1)).
Proof.
  assert (A : forall w0 : World, files w0 !! filepath = None ->
            cleanup_downloaded_file env filepath w0 = (Return tt, w0)
            /\ remove_if_exists env filepath w0 = (Return tt, w0)).
  { intros w0 H. unfold cleanup_downloaded_file, try_except.
    now rewrite (remove_if_exists_absent env filepath w0 H). }
  split; [apply A|].
  intros F w1.
  assert (H1 : files w1 !! filepath = None).
  { subst w1.
    destruct (cleanup_downloaded_file_cases env filepath w)
      as [[H ->] | [[_ ->] | (e & F' & _)]].
    - exact H.
    - simpl. apply lookup_delete_eq.
    - congruence. }
  split; [exact H1|]. apply A, H1.
Qed.

Lemma cleanup_idempotent_witness :
  let w1 := (cleanup_downloaded_file Demo.env (Demo.path_of "film") Demo.w_film).2 in
  files w1 !! Demo.path_of "film" = None
  /\ cleanup_downloaded_file Demo.env (Demo.path_of "film") w1 = (Return tt, w1)
  /\ remove_if_exists Demo.env (Demo.path_of "film") w1 = (Return tt, w1).
Proof.
  apply (proj2 (cleanup_idempotent Demo.env (Demo.path_of "film") Demo.w_film)).
  reflexivity.
Defined.

(** C10: "No Premium" pressed while nothing is pending raises out of
    [button_callback], at the formatting of the text from the absent
    record and before any reply; the state is reached by pressing the
    button a second time after it resolved a pending file. *)
Theorem premium_no_without_pending_raises :
  (forall (env : Env) (uid : Z) (w : World),
     ud_pending_file (user_data w) = None ->
     fails env AnswerQuery = None ->
     button_callback env (CallbackQuery uid "premium_no") w
     = (Raise (TypeError "'NoneType' object is not subscriptable"),
        record AnswerQuery w))
  /\ (let w1 := (handle_message Demo.cfg Demo.env
                   (TextMessage 7 "https://example.com/film") Demo.w0).2 in
      let w2 := (button_callback Demo.env (CallbackQuery 7 "premium_no") w1).2 in
      ud_pending_file (user_data w1) <> None
      /\ ud_pending_file (user_data w2) = None
      /\ (button_callback Demo.env (CallbackQuery 7 "premium_no") w2).1
         = Raise (TypeError "'NoneType' object is not subscriptable")).
Proof.
  split.
  - intros env uid w Hp F. unfold button_callback. run. rewrite F.
    unfold record at 1. world. now rewrite Hp.
  - vm_compute. repeat split. discriminate.
Qed.

Lemma premium_no_without_pending_raises_witness :
  button_callback Demo.env (CallbackQuery 7 "premium_no") Demo.w0
  = (Raise (TypeError "'NoneType' object is not subscriptable"),
     record AnswerQuery Demo.w0).
Proof.
  apply (proj1 premium_no_without_pending_raises Demo.env 7 Demo.w0);
    reflexivity.
Defined.

(** ** Authorization *)

(** C7 as stated fails: an allow-list that names user 111 after a leading
    comma is not empty, user 222 is not in it, and the handler goes on to
    look for a URL instead of replying with the unauthorized notice. *)
Lemma allow_list_with_leading_comma_admits_everyone :
  ~ (forall (cfg : Config) (env : Env) (uid : Z) (text : string) (w : World),
       (exists u, In u (ALLOWED_USERS cfg) /\ u <> "") ->
       Py.mem (str_of_int uid) (ALLOWED_USERS cfg) = false ->
       (handle_message cfg env (TextMessage uid text) w).2
       = record (ReplyText MsgUnauthorized None) w).
Proof.
  intros H.
  specialize (H (Demo.cfg_allowing ",111") Demo.env 222 "hello" Demo.w0).
  assert (E : (handle_message (Demo.cfg_allowing ",111") Demo.env
                 (TextMessage 222 "hello") Demo.w0).2
              = record (ReplyText MsgNoUrl None) Demo.w0) by reflexivity.
  rewrite E in H.
  assert (A : exists u, In u (ALLOWED_USERS (Demo.cfg_allowing ",111")) /\ u <> "").
  { exists "111". split; [right; left; reflexivity | discriminate]. }
  specialize (H A eq_refl). discriminate H.
Qed.

(** C7, amended: when the first entry of the allow-list is not empty and
    the sender's id is not an entry, the unauthorized notice is the one
    thing the handler does; when the variable is empty or unset the
    handler is the processing of the message, for every sender. *)
Theorem allow_list_gate
    (cfg : Config) (env : Env) (uid : Z) (text : string) (w : World) :
  ((exists first rest, ALLOWED_USERS cfg = first :: rest /\ first <> "") ->
   Py.mem (str_of_int uid) (ALLOWED_USERS cfg) = false ->
     (handle_message cfg env (TextMessage uid text) w).2
     = record (ReplyText MsgUnauthorized None) w)
  /\ (ALLOWED_USERS cfg = allowed_users_of_env None
      \/ ALLOWED_USERS cfg = allowed_users_of_env (Some "") ->
        handle_message cfg env (TextMessage uid text) w
        = process_message cfg env (TextMessage uid text) w).
Proof.
  split.
  - intros (first & rest & E & Hne) Hm.
    unfold handle_message, whitelist_configured. rewrite E.
    apply String.eqb_neq in Hne. rewrite Hne. rewrite <- E. simpl.
    rewrite Hm. simpl. unfold call. destruct (fails env _); reflexivity.
  - intros H. unfold handle_message, whitelist_configured.
    assert (E : ALLOWED_USERS cfg = [""]) by (destruct H as [-> | ->]; reflexivity).
    rewrite E. reflexivity.
Qed.

Lemma allow_list_gate_witness :
  (handle_message (Demo.cfg_allowing "111") Demo.env
     (TextMessage 222 "https://example.com/clip") Demo.w0).2
  = record (ReplyText MsgUnauthorized None) Demo.w0.
Proof.
  apply (proj1 (allow_list_gate (Demo.cfg_allowing "111") Demo.env 222
                  "https://example.com/clip" Demo.w0)).
  - exists "111", []. split; [reflexivity | discriminate].
  - reflexivity.
Defined.

(** C9: the command handlers and the button handler are reached without
    any look at the allow-list: the application runs each command and
    each button press to the same result whoever sends it and whatever
    the allow-list is, and what it runs is the registered callback. *)
Theorem commands_and_buttons_skip_allow_list
    (cfg : Config) (env : Env) (allowed : list string) (uid uid' : Z) (w : World) :
  (forall name,
     process_update cfg env (Command uid name) w
     = process_update (with_allowed_users allowed cfg) env (Command uid' name) w)
  /\ (forall data,
        process_update cfg env (CallbackQuery uid data) w
        = process_update (with_allowed_users allowed cfg) env
            (CallbackQuery uid' data) w)
  /\ dispatch cfg env (Command uid "start") = start_command env (Command uid "start")
  /\ dispatch cfg env (Command uid "help") = help_command cfg env (Command uid "help")
  /\ dispatch cfg env (Command uid "quality")
     = quality_command env (Command uid "quality")
  /\ dispatch cfg env (Command uid "audio") = audio_command env (Command uid "audio")
  /\ dispatch cfg env (Command uid "video") = video_command env (Command uid "video")
  /\ (forall data,
        dispatch cfg env (CallbackQuery uid data)
        = button_callback env (CallbackQuery uid data)).
Proof.
  split; [|split; [|repeat split]].
  - intros name. unfold process_update, dispatch, handlers.
    cbn [find_handler handler_for].
    repeat (destruct (String.eqb _ name); [reflexivity|]). reflexivity.
  - intros data. reflexivity.
Qed.

(** ** The message handler around the delivery *)


(** The prompt of a 120 MB film, then a press on each of its buttons:
    "I have Premium" leaves the film on disk and pending, "No Premium"
    removes it and empties the slot. *)
Lemma prompt_then_each_button :
  let w1 := (handle_message Demo.cfg Demo.env
               (TextMessage 7 "https://example.com/film") Demo.w0).2 in
  exists m yes no,
    last (calls w1) = Some (EditText m (Some [[yes; no]]))
    /\ (let w2 := (button_callback Demo.env
                     (CallbackQuery 7 (callback_data yes)) w1).2 in
        existsb is_send (calls w2) = false
        /\ files w2 !! Demo.path_of "film" = Some (120 * MB)
        /\ ud_pending_file (user_data w2) = ud_pending_file (user_data w1)
        /\ ud_pending_file (user_data w2) <> None)
    /\ (let w2 := (button_callback Demo.env
                     (CallbackQuery 7 (callback_data no)) w1).2 in
        files w2 !! Demo.path_of "film" = None
        /\ ud_pending_file (user_data w2) = None).
Proof.
  eexists _, _, _. split; [vm_compute; reflexivity|].
  split; vm_compute; repeat split; discriminate.
Qed.

(** * Further properties of the code *)

(** ** URL extraction *)

Lemma url_run_chars (s : string) : all_chars url_char (url_run s) = true.
Proof.
  induction s as [|c s IH]; simpl; [reflexivity|].
  destruct (url_char c) eqn:E; simpl; [|reflexivity]. now rewrite E.
Qed.

(** [s.startswith(p)] holds exactly of the strings [p + rest]. *)
Lemma prefix_inv (p s : string) :
  String.prefix p s = true -> exists rest, s = p +:+ rest.
Proof.
  revert s. induction p as [|a p IH]; intros s.
  - intros _. now exists s.
  - destruct s as [|b s]; [discriminate|].
    change (String.prefix (String a p) (String b s))
      with (if ascii_dec a b then String.prefix p s else false).
    destruct (ascii_dec a b) as [<-|]; [|discriminate].
    intros H. destruct (IH s H) as [rest ->]. now exists rest.
Qed.

Lemma prefix_app (p rest : string) : String.prefix p (p +:+ rest) = true.
Proof.
  induction p as [|a p IH].
  - now destruct rest.
  - change (String.prefix (String a p) (String a p +:+ rest))
      with (if ascii_dec a a then String.prefix p (p +:+ rest) else false).
    destruct (ascii_dec a a); [exact IH | congruence].
Qed.

Lemma prefix_http_of_https (s : string) :
  String.prefix "https://" s = true -> String.prefix "http" s = true.
Proof.
  intros H. destruct (prefix_inv _ _ H) as [rest ->].
  exact (prefix_app "http" ("s://" +:+ rest)).
Qed.

Lemma prefix_http_of_http (s : string) :
  String.prefix "http://" s = true -> String.prefix "http" s = true.
Proof.
  intros H. destruct (prefix_inv _ _ H) as [rest ->].
  exact (prefix_app "http" ("://" +:+ rest)).
Qed.

(** The shape of a match at the head of a text. *)
Lemma url_match_here_shape (s u : string) :
  url_match_here s = Some u ->
  String.prefix "http" s = true
  /\ exists run, run <> ""
       /\ all_chars url_char run = true
       /\ (u = "https://" +:+ run \/ u = "http://" +:+ run).
Proof.
  unfold url_match_here.
  destruct (String.prefix "https://" s) eqn:P1.
  - pose proof (url_run_chars (Py.slice_from 8 s)) as Hc.
    destruct (url_run (Py.slice_from 8 s)) as [|c r] eqn:E; [discriminate|].
    intros [= <-]. split; [now apply prefix_http_of_https|].
    exists (String c r). repeat split; [discriminate | exact Hc | now left].
  - destruct (String.prefix "http://" s) eqn:P2; [|discriminate].
    pose proof (url_run_chars (Py.slice_from 7 s)) as Hc.
    destruct (url_run (Py.slice_from 7 s)) as [|c r] eqn:E; [discriminate|].
    intros [= <-]. split; [now apply prefix_http_of_http|].
    exists (String c r). repeat split; [discriminate | exact Hc | now right].
Qed.

(** X1: every URL that the pattern of [handle_message] extracts is [http://] or
    [https://] followed by at least one character, and every character
    after the scheme is of the pattern's class: an extracted URL never
    holds a space, a [#], a [~], a quote or a brace. *)
Theorem findall_urls_shape (text u : string) :
  In u (findall_urls text) ->
  exists run, run <> ""
    /\ all_chars url_char run = true
    /\ (u = "https://" +:+ run \/ u = "http://" +:+ run)
    /\ all_chars (fun c => negb (Ascii.eqb c " " || Ascii.eqb c "#" || Ascii.eqb c "~"
                                 || Ascii.eqb c "034" || Ascii.eqb c "{"
                                 || Ascii.eqb c "}")) u = true.
Proof.
  unfold findall_urls. generalize O as skip.
  induction text as [|c s IH]; intros skip; simpl; [tauto|].
  destruct skip as [|k]; [|apply IH].
  destruct (url_match_here (String c s)) as [m|] eqn:E; [|apply IH].
  intros [<- | H]; [|exact (IH _ H)].
  destruct (url_match_here_shape _ _ E) as (_ & run & Hne & Hc & Hu).
  exists run. repeat split; try assumption.
  assert (A : forall r, all_chars url_char r = true ->
            all_chars (fun c => negb (Ascii.eqb c " " || Ascii.eqb c "#"
                                      || Ascii.eqb c "~" || Ascii.eqb c "034"
                                      || Ascii.eqb c "{" || Ascii.eqb c "}")) r = true).
  { induction r as [|a r IHr]; simpl; [reflexivity|].
    intros H. apply andb_true_iff in H as [Ha Hr]. rewrite (IHr Hr), andb_true_r.
    destruct (Ascii.eqb_spec a " ") as [->|]; [discriminate Ha|].
    destruct (Ascii.eqb_spec a "#") as [->|]; [discriminate Ha|].
    destruct (Ascii.eqb_spec a "~") as [->|]; [discriminate Ha|].
    destruct (Ascii.eqb_spec a "034") as [->|]; [discriminate Ha|].
    destruct (Ascii.eqb_spec a "{") as [->|]; [discriminate Ha|].
    destruct (Ascii.eqb_spec a "}") as [->|]; [discriminate Ha|].
    reflexivity. }
  destruct Hu as [-> | ->]; simpl; now apply A.
Qed.

Lemma findall_urls_shape_witness :
  exists run, run <> ""
    /\ all_chars url_char run = true
    /\ ("https://a.com/" = "https://" +:+ run \/ "https://a.com/" = "http://" +:+ run)
    /\ all_chars (fun c => negb (Ascii.eqb c " " || Ascii.eqb c "#" || Ascii.eqb c "~"
                                 || Ascii.eqb c "034" || Ascii.eqb c "{"
                                 || Ascii.eqb c "}")) "https://a.com/" = true.
Proof.
  apply (findall_urls_shape "see https://a.com/~me#top" "https://a.com/").
  left. reflexivity.
Defined.

Lemma findall_urls_from_none (text : string) (skip : nat) :
  (forall i, String.prefix "http" (Py.slice_from i text) = false) ->
  findall_urls_from skip text = [].
Proof.
  revert skip. induction text as [|c s IH]; intros skip H; [reflexivity|].
  assert (Hs : forall i, String.prefix "http" (Py.slice_from i s) = false)
    by (intros i; exact (H (S i))).
  cbn [findall_urls_from]. destruct skip as [|k]; [|now apply IH].
  destruct (url_match_here (String c s)) as [u|] eqn:E; [|now apply IH].
  destruct (url_match_here_shape _ _ E) as [P _].
  specialize (H O). cbn [Py.slice_from] in H. congruence.
Qed.

(** X2: a text message in which [http] occurs nowhere gets one reply and
    nothing else, whatever the allow-list: the unauthorized notice or
    the "no valid URL" text.  No engine call is made and the
    conversation and the disk are as before. *)
Theorem handle_message_without_http
    (cfg : Config) (env : Env) (uid : Z) (text : string) (w : World) :
  (forall i, String.prefix "http" (Py.slice_from i text) = false) ->
  findall_urls text = []
  /\ exists m, (m = MsgUnauthorized \/ m = MsgNoUrl)
       /\ (handle_message cfg env (TextMessage uid text) w).2
          = record (ReplyText m None) w.
Proof.
  intros H. pose proof (findall_urls_from_none text O H) as E.
  split; [exact E|].
  unfold handle_message.
  destruct (whitelist_configured cfg && _).
  - exists MsgUnauthorized. split; [now left|].
    unfold call. destruct (fails env _); reflexivity.
  - exists MsgNoUrl. split; [now right|].
    unfold process_message. cbn [message_text lift].
    unfold mbind, M_bind, mret, M_ret. unfold findall_urls in E. unfold findall_urls.
    rewrite E. unfold call. destruct (fails env _); reflexivity.
Qed.

Lemma handle_message_without_http_witness :
  findall_urls "HTTPS://EXAMPLE.COM/film please" = []
  /\ exists m, (m = MsgUnauthorized \/ m = MsgNoUrl)
       /\ (handle_message Demo.cfg Demo.env
             (TextMessage 7 "HTTPS://EXAMPLE.COM/film please") Demo.w0).2
          = record (ReplyText m None) Demo.w0.
Proof.
  apply (handle_message_without_http Demo.cfg Demo.env 7
           "HTTPS://EXAMPLE.COM/film please" Demo.w0).
  intros i.
  do 32 (destruct i as [|i]; [reflexivity|]). reflexivity.
Defined.

(** X3: only the first URL of a message counts: two messages whose first
    extracted URLs agree (or that both have none) are processed alike,
    whoever sent them and whatever else they say. *)
Theorem process_message_first_url_only
    (cfg : Config) (env : Env) (uid1 uid2 : Z) (text1 text2 : string) (w : World) :
  hd_error (findall_urls text1) = hd_error (findall_urls text2) ->
  process_message cfg env (TextMessage uid1 text1) w
  = process_message cfg env (TextMessage uid2 text2) w.
Proof.
  intros H. unfold process_message. cbn [message_text lift].
  unfold mbind, M_bind, mret, M_ret. cbn beta iota.
  destruct (findall_urls text1) as [|u1 l1], (findall_urls text2) as [|u2 l2];
    try discriminate; [reflexivity|].
  injection H as <-. reflexivity.
Qed.

Lemma process_message_first_url_only_witness :
  process_message Demo.cfg Demo.env
    (TextMessage 7 "https://example.com/clip and https://example.com/film") Demo.w0
  = process_message Demo.cfg Demo.env
      (TextMessage 8 "take https://example.com/clip") Demo.w0.
Proof.
  apply (process_message_first_url_only Demo.cfg Demo.env 7 8
           "https://example.com/clip and https://example.com/film"
           "take https://example.com/clip" Demo.w0).
  reflexivity.
Defined.

(** ** Engine options *)

(** X4: the options of [get_yt_dlp_options].  Whatever the quality and
    the media type, the format expression ends in the generic [best] and
    the output template is the same; the audio mode takes no account of
    the quality and is the only one with a post-processor; every other
    media type, known or not, is treated as video: merged to mp4, with
    the fallback [/best], and an unknown quality gets the plain
    [best[ext=mp4]/best]. *)
Theorem get_yt_dlp_options_modes (cfg : Config) (quality media_type : string) :
  let o := get_yt_dlp_options cfg quality media_type in
  ends_with (format o) "best" = true
  /\ outtmpl o = Py.path_join (DOWNLOAD_PATH cfg) "%(title)s.%(ext)s"
  /\ get_yt_dlp_options cfg quality "audio" = get_yt_dlp_options cfg "best" "audio"
  /\ postprocessors (get_yt_dlp_options cfg quality "audio")
     = Some ("FFmpegExtractAudio", "mp3", "320")
  /\ (if String.eqb media_type "audio" then o = get_yt_dlp_options cfg "best" "audio"
      else postprocessors o = None
           /\ merge_output_format o = Some "mp4"
           /\ ends_with (format o) "/best" = true
           /\ (if Py.mem quality ["best"; "1080p"; "720p"; "480p"]
               then format o <> "best[ext=mp4]/best"
               else format o = "best[ext=mp4]/best")).
Proof.
  unfold get_yt_dlp_options. cbn [Py.mem existsb].
  destruct (String.eqb media_type "audio"); cbn [format outtmpl postprocessors
    merge_output_format].
  - repeat split.
  - destruct (String.eqb quality "best");
      [cbn [orb]; repeat split; discriminate|].
    destruct (String.eqb quality "1080p");
      [cbn [orb]; repeat split; discriminate|].
    destruct (String.eqb quality "720p");
      [cbn [orb]; repeat split; discriminate|].
    destruct (String.eqb quality "480p");
      [cbn [orb]; repeat split; discriminate|].
    cbn [orb]. repeat split.
Qed.

(** ** Download orchestrator, beyond the size limit *)

Lemma new_calls_app (w w' : World) (l : list Call) :
  calls w' = calls w ++ l -> new_calls w w' = l.
Proof. intros E. unfold new_calls. rewrite E. apply drop_app_length. Qed.

(** Unfolding of [download_media] down to the engine's answers. *)
Ltac dl_unfold :=
  unfold download_media, try_except, download_media_body, ydl_extract_info,
    write_files, logger_error, lift, raise, record, mbind, M_bind, mret, M_ret;
  cbn beta iota.

Ltac dl_step :=
  match goal with
  | |- context [extract_info ?e ?u ?o ?d] => destruct (extract_info e u o d) eqn:?
  | |- context [div_MB ?x] => destruct (div_MB x) eqn:?
  | |- context [gt_int ?x ?n] => destruct (gt_int x n) as [?|[]] eqn:?
  | |- context [prepare_filename ?e ?o ?i] => destruct (prepare_filename e o i) eqn:?
  | |- context [description_of ?i] => destruct (description_of i) eqn:?
  end;
  cbn beta iota; cbn [files user_data calls fst snd].

(** A batch of writes never takes a file off the disk. *)
Lemma writes_keep_files (l : list (string * Z)) (m : gmap string Z) (p : string) :
  is_Some (m !! p) ->
  is_Some (foldr (fun kv m => <[kv.1 := kv.2]> m) m l !! p).
Proof.
  intros H. induction l as [|[k v] l IH]; simpl; [exact H|].
  destruct (decide (k = p)) as [->|Hne].
  - rewrite lookup_insert_eq. eauto.
  - now rewrite lookup_insert_ne.
Qed.

(** X5: [download_media] speaks to the engine and to the log only: it
    sends nothing to the user and removes nothing, it leaves the
    conversation as it is, and every file that was on disk is still
    there afterwards. *)
Theorem download_media_frame
    (cfg : Config) (env : Env) (url quality media_type : string) (w : World) :
  let r := download_media cfg env url quality media_type w in
  exists new,
    calls r.2 = calls w ++ new
    /\ existsb is_user_visible new = false
    /\ (forall p, existsb (is_remove_of p) new = false)
    /\ user_data r.2 = user_data w
    /\ (forall p, is_Some (files w !! p) -> is_Some (files r.2 !! p)).
Proof.
  dl_unfold. repeat dl_step;
    cbn [files user_data calls fst snd];
    eexists; (split; [rewrite <- ?app_assoc; reflexivity|]);
    repeat split; auto using writes_keep_files.
Qed.

(** With a numeric estimate the download step is made or not by the
    comparison of line 129 alone. *)
Lemma download_step_by_estimate
    (cfg : Config) (env : Env) (url quality media_type : string) (w : World)
    (info : Info) (b : bool) :
  extract_info (engine env) url (get_yt_dlp_options cfg quality media_type) false
  = inr info ->
  gt_int (estimated_filesize info) (MAX_FILE_SIZE_MB cfg * 1024 * 1024) = inr b ->
  existsb is_engine_download
    (new_calls w (download_media cfg env url quality media_type w).2)
  = negb b.
Proof.
  intros Hp Hgt.
  assert (Hmb : exists mb, div_MB (estimated_filesize info) = inr mb).
  { destruct (estimated_filesize info); try discriminate; simpl; eauto. }
  destruct Hmb as [mb Hmb].
  dl_unfold. rewrite Hp. cbn beta iota. rewrite Hmb, Hgt. cbn beta iota.
  destruct b; cbn beta iota.
  - erewrite new_calls_app by (cbn [calls snd]; reflexivity). reflexivity.
  - repeat dl_step;
      (erewrite new_calls_app
         by (cbn [calls snd]; rewrite <- ?app_assoc; reflexivity));
      reflexivity.
Qed.

(** X6: with an integer estimate of [n] bytes from the probe, the engine
    downloads exactly when [n] is at most [MAX_FILE_SIZE_MB * 1024 * 1024];
    an estimate equal to the limit is downloaded. *)
Theorem download_step_iff_within_limit
    (cfg : Config) (env : Env) (url quality media_type : string) (w : World)
    (info : Info) (n : Z) :
  extract_info (engine env) url (get_yt_dlp_options cfg quality media_type) false
  = inr info ->
  estimated_filesize info = PInt n ->
  existsb is_engine_download
    (new_calls w (download_media cfg env url quality media_type w).2)
  = (n <=? MAX_FILE_SIZE_MB cfg * 1024 * 1024).
Proof.
  intros Hp He.
  rewrite (download_step_by_estimate cfg env url quality media_type w info
             (MAX_FILE_SIZE_MB cfg * 1024 * 1024 <? n) Hp).
  - symmetry. apply Z.leb_antisym.
  - rewrite He. reflexivity.
Qed.

(** X7: when the probe knows no size (no [filesize], or an empty one,
    and no [filesize_approx] key) the estimate is 0 and, the limit not
    being negative, the download is made whatever the real size is. *)
Theorem download_of_unknown_size
    (cfg : Config) (env : Env) (url quality media_type : string) (w : World)
    (info : Info) :
  extract_info (engine env) url (get_yt_dlp_options cfg quality media_type) false
  = inr info ->
  truthy (default PNone (info !! "filesize")) = false ->
  info !! "filesize_approx" = None ->
  0 <= MAX_FILE_SIZE_MB cfg ->
  estimated_filesize info = PInt 0
  /\ existsb is_engine_download
       (new_calls w (download_media cfg env url quality media_type w).2)
     = true.
Proof.
  intros Hp Hf Ha Hmax.
  assert (He : estimated_filesize info = PInt 0).
  { unfold estimated_filesize, py_or. now rewrite Hf, Ha. }
  split; [exact He|].
  rewrite (download_step_by_estimate cfg env url quality media_type w info false Hp);
    [reflexivity|].
  rewrite He. simpl. f_equal. apply Z.ltb_ge. lia.
Qed.

(** X8: a [filesize_approx] key that holds [None], under a [filesize]
    that is absent or empty, makes the estimate [None]: the division of
    line 127 raises, the failure dict carries that exception's text, and
    the download is not made. *)
Theorem download_media_none_estimate
    (cfg : Config) (env : Env) (url quality media_type : string) (w : World)
    (info : Info) :
  extract_info (engine env) url (get_yt_dlp_options cfg quality media_type) false
  = inr info ->
  truthy (default PNone (info !! "filesize")) = false ->
  info !! "filesize_approx" = Some PNone ->
  let r := download_media cfg env url quality media_type w in
  (exists msg, r.1 = Return (DlFailure (ExnText msg) None))
  /\ existsb is_engine_download (new_calls w r.2) = false.
Proof.
  intros Hp Hf Ha.
  assert (He : estimated_filesize info = PNone).
  { unfold estimated_filesize, py_or. now rewrite Hf, Ha. }
  dl_unfold. rewrite Hp. cbn beta iota. rewrite He. cbn [div_MB]. cbn beta iota.
  split; [eexists; reflexivity|].
  erewrite new_calls_app
    by (cbn [calls snd]; rewrite <- ?app_assoc; reflexivity).
  reflexivity.
Qed.

Lemma download_step_iff_within_limit_witness :
  existsb is_engine_download
    (new_calls Demo.w0
       (download_media Demo.cfg
          (Demo.env_of (Demo.ydl_of (inr (Demo.info_of "film" (2048 * MB)))
                                    (inl (Exn "DownloadError" "HTTP Error 403"))
                                    [] (inr "film.mp4")))
          "https://example.com/film" "best" "video" Demo.w0).2)
  = (2048 * MB <=? MAX_FILE_SIZE_MB Demo.cfg * 1024 * 1024).
Proof.
  apply (download_step_iff_within_limit Demo.cfg _ "https://example.com/film"
           "best" "video" Demo.w0 (Demo.info_of "film" (2048 * MB)) (2048 * MB));
    reflexivity.
Defined.

Lemma download_of_unknown_size_witness :
  estimated_filesize (Demo.info_of "stream" 0) = PInt 0
  /\ existsb is_engine_download
       (new_calls Demo.w0
          (download_media Demo.cfg Demo.env "https://example.com/stream" "best" "video"
             Demo.w0).2)
     = true.
Proof.
  apply (download_of_unknown_size Demo.cfg Demo.env "https://example.com/stream"
           "best" "video" Demo.w0 (Demo.info_of "stream" 0)).
  - reflexivity.
  - reflexivity.
  - reflexivity.
  - vm_compute. discriminate.
Defined.

Lemma download_media_none_estimate_witness :
  let r := download_media Demo.cfg
             (Demo.env_of (Demo.ydl_of (inr {[ "title" := PStr "live";
                                               "filesize_approx" := PNone ]})
                                       (inl (Exn "DownloadError" "unused"))
                                       [] (inr "live.mp4")))
             "https://example.com/live" "best" "video" Demo.w0 in
  (exists msg, r.1 = Return (DlFailure (ExnText msg) None))
  /\ existsb is_engine_download (new_calls Demo.w0 r.2) = false.
Proof.
  apply (download_media_none_estimate Demo.cfg _ "https://example.com/live"
           "best" "video" Demo.w0
           {[ "title" := PStr "live"; "filesize_approx" := PNone ]});
    reflexivity.
Defined.

Lemma slice_to_length (n : nat) (s : string) : (String.length (Py.slice_to n s) <= n)%nat.
Proof.
  revert s. induction n as [|n IH]; intros [|c s]; simpl; try lia.
  specialize (IH s). lia.
Qed.

Lemma slice_from_append (a b : string) :
  Py.slice_from (String.length a) (a +:+ b) = b.
Proof. induction a as [|c a IH]; simpl; [now destruct b | exact IH]. Qed.

Lemma append_length (a b : string) :
  String.length (a +:+ b) = (String.length a + String.length b)%nat.
Proof. induction a as [|c a IH]; simpl; [reflexivity | now rewrite IH]. Qed.

Lemma ends_with_append (a suffix : string) : ends_with (a +:+ suffix) suffix = true.
Proof.
  unfold ends_with. rewrite append_length.
  replace (String.length a + String.length suffix - String.length suffix)%nat
    with (String.length a) by lia.
  rewrite slice_from_append. apply String.eqb_refl.
Qed.

Lemma written_files_present (l : list (string * Z)) (m : gmap string Z)
    (p : string) (n : Z) :
  In (p, n) l -> is_Some (foldr (fun kv m => <[kv.1 := kv.2]> m) m l !! p).
Proof.
  induction l as [|[k v] l IH]; simpl; [tauto|].
  intros [[= -> ->] | H].
  - rewrite lookup_insert_eq. eauto.
  - destruct (decide (k = p)) as [->|Hne].
    + rewrite lookup_insert_eq. eauto.
    + rewrite lookup_insert_ne by exact Hne. now apply IH.
Qed.

(** X9: a download whose info dict holds [None] as description fails
    after the fact: the engine has downloaded, line 155 raises on the
    slice, the failure dict is returned and every file the download
    wrote is left on disk. *)
Theorem download_media_none_description
    (cfg : Config) (env : Env) (url quality media_type : string) (w : World)
    (info info' : Info) (name : string) :
  let opts := get_yt_dlp_options cfg quality media_type in
  extract_info (engine env) url opts false = inr info ->
  gt_int (estimated_filesize info) (MAX_FILE_SIZE_MB cfg * 1024 * 1024) = inr false ->
  extract_info (engine env) url opts true = inr info' ->
  prepare_filename (engine env) opts info' = inr name ->
  info' !! "description" = Some PNone ->
  let r := download_media cfg env url quality media_type w in
  (exists msg, r.1 = Return (DlFailure (ExnText msg) None))
  /\ existsb is_engine_download (new_calls w r.2) = true
  /\ (forall p n, In (p, n) (download_writes (engine env) url opts) ->
        is_Some (files r.2 !! p)).
Proof.
  intros opts Hp Hgt Hd Hn Hdesc.
  assert (Hmb : exists mb, div_MB (estimated_filesize info) = inr mb).
  { destruct (estimated_filesize info); try discriminate; simpl; eauto. }
  destruct Hmb as [mb Hmb].
  assert (Hde : description_of info' = inl (TypeError "object is not subscriptable"))
    by (unfold description_of; now rewrite Hdesc).
  dl_unfold. fold opts. rewrite Hp. cbn beta iota. rewrite Hmb, Hgt. cbn beta iota.
  rewrite Hd. cbn beta iota. cbn [files user_data calls]. rewrite Hn. cbn beta iota.
  rewrite Hde. cbn beta iota. cbn [fst snd files].
  split; [eexists; reflexivity|]. split.
  - erewrite new_calls_app
      by (cbn [calls snd]; rewrite <- ?app_assoc; reflexivity).
    reflexivity.
  - intros p n H. apply (written_files_present _ _ p n).
    rewrite <- in_rev. exact H.
Qed.

Lemma download_media_none_description_witness :
  let r := download_media Demo.cfg
             (Demo.env_of (Demo.ydl_of (inr (Demo.info_of "clip" (10 * MB)))
                                       (inr {[ "title" := PStr "clip";
                                               "description" := PNone ]})
                                       [("clip.mp4", 10 * MB)] (inr "clip.mp4")))
             "https://example.com/clip" "best" "video" Demo.w0 in
  (exists msg, r.1 = Return (DlFailure (ExnText msg) None))
  /\ existsb is_engine_download (new_calls Demo.w0 r.2) = true
  /\ (forall p n, In (p, n) [("clip.mp4", 10 * MB)] -> is_Some (files r.2 !! p)).
Proof.
  apply (download_media_none_description Demo.cfg
           (Demo.env_of (Demo.ydl_of (inr (Demo.info_of "clip" (10 * MB)))
                                     (inr {[ "title" := PStr "clip";
                                             "description" := PNone ]})
                                     [("clip.mp4", 10 * MB)] (inr "clip.mp4")))
           "https://example.com/clip" "best" "video" Demo.w0
           (Demo.info_of "clip" (10 * MB))
           {[ "title" := PStr "clip"; "description" := PNone ]} "clip.mp4");
    reflexivity.
Defined.

Lemma description_of_length (info : Info) (d : string) :
  description_of info = inr d -> (String.length d <= 200)%nat.
Proof.
  unfold description_of. destruct (default (PStr "") _) as [| | |s]; try discriminate.
  pose proof (slice_to_length 200 s) as L.
  remember (Py.slice_to 200 s) as d' eqn:E. clear E.
  intros H. assert (d' = d) by congruence. subst. exact L.
Qed.

(** X10: the success dict of [download_media].  Its description has at
    most 200 characters; in audio mode its file path ends in [.mp3], in
    any other mode it is the engine's file name; and the run made two
    engine calls, the probe and then the download, and no other call. *)
Theorem download_media_success_shape
    (cfg : Config) (env : Env) (url quality media_type : string)
    (w w' : World) (m : Media) :
  let opts := get_yt_dlp_options cfg quality media_type in
  download_media cfg env url quality media_type w = (Return (DlSuccess m), w') ->
  (String.length (description m) <= 200)%nat
  /\ (if String.eqb media_type "audio" then ends_with (filepath m) ".mp3" = true
      else exists info',
             extract_info (engine env) url opts true = inr info'
             /\ prepare_filename (engine env) opts info' = inr (filepath m))
  /\ new_calls w w' = [ExtractInfo url opts false; ExtractInfo url opts true].
Proof.
  intros opts. dl_unfold. fold opts. repeat dl_step; try discriminate.
  intros [= <- <-]. cbn [description filepath calls].
  split; [|split].
  - match goal with H : description_of _ = inr _ |- _ =>
      exact (description_of_length _ _ H)
    end.
  - destruct (String.eqb media_type "audio").
    + apply ends_with_append.
    + eexists. split; [reflexivity | eassumption].
  - apply new_calls_app. cbn [calls]. rewrite <- ?app_assoc. reflexivity.
Qed.

Lemma download_media_success_shape_witness :
  exists m w',
    download_media Demo.cfg Demo.env "https://example.com/clip" "best" "audio" Demo.w0
    = (Return (DlSuccess m), w')
    /\ (String.length (description m) <= 200)%nat
    /\ ends_with (filepath m) ".mp3" = true
    /\ new_calls Demo.w0 w'
       = [ExtractInfo "https://example.com/clip"
            (get_yt_dlp_options Demo.cfg "best" "audio") false;
          ExtractInfo "https://example.com/clip"
            (get_yt_dlp_options Demo.cfg "best" "audio") true].
Proof.
  eexists _, _. split; [vm_compute; reflexivity|].
  eapply (download_media_success_shape Demo.cfg Demo.env "https://example.com/clip"
            "best" "audio" Demo.w0).
  vm_compute. reflexivity.
Defined.

(** ** Sending and cleaning up *)

Lemma Qgtb_true_inv (a b : Q) : Qgtb a b = true -> (b < a)%Q.
Proof.
  unfold Qgtb. intros H. apply Qnot_le_lt. intros L.
  apply Qle_bool_iff in L. rewrite L in H. discriminate.
Qed.




(** X12: the caption's minutes and seconds.  For an integer duration
    they are the floor quotient and the remainder by 60: they add up to
    the duration and the seconds lie in 0..59, also for a negative
    duration.  For any other duration (a float, [None], a string) the
    formatting raises and [send_media_file] ends there, before the file
    is opened and before any call. *)
Theorem caption_of_duration (media : Media) (mb : Q) :
  match duration media with
  | PInt d =>
      exists c, make_caption media mb = inr c
        /\ cap_minutes c * 60 + cap_seconds c = d
        /\ 0 <= cap_seconds c < 60
        /\ cap_title c = title media /\ cap_uploader c = uploader media
        /\ cap_size_mb c = mb
  | _ =>
      exists e, make_caption media mb = inl e
        /\ forall env update fp media_type w,
             send_media_file env update fp mb media media_type w = (Raise e, w)
  end.
Proof.
  unfold make_caption, send_media_file.
  destruct (duration media) as [|d|q|s] eqn:E.
  - eexists. split; [reflexivity|]. intros. unfold make_caption. rewrite E. reflexivity.
  - eexists. split; [reflexivity|].
    cbn [cap_minutes cap_seconds cap_title cap_uploader cap_size_mb].
    pose proof (Z.div_mod d 60 ltac:(lia)) as Hd.
    pose proof (Z.mod_pos_bound d 60 ltac:(lia)) as Hm.
    repeat split; try reflexivity; lia.
  - eexists. split; [reflexivity|]. intros. unfold make_caption. rewrite E. reflexivity.
  - eexists. split; [reflexivity|]. intros. unfold make_caption. rewrite E. reflexivity.
Qed.

(** X13: the cleanup of [handle_message] is best effort.  It always
    returns normally; when the file is there and the removal fails, the
    failure is logged and that is all. *)
Theorem cleanup_is_best_effort (env : Env) (filepath : string) (w : World) :
  (cleanup_downloaded_file env filepath w).1 = Return tt
  /\ forall e, is_Some (files w !! filepath) ->
       fails env (OsRemove filepath) = Some e ->
       (cleanup_downloaded_file env filepath w).2
       = record (LogError ("Error removing file: " +:+ exn_str e))
           (record (OsRemove filepath) w).
Proof.
  destruct (cleanup_downloaded_file_cases env filepath w)
    as [[H ->] | [[F ->] | (e & F & ->)]]; (split; [reflexivity|]); intros e' Hs F'.
  - rewrite H in Hs. destruct Hs. discriminate.
  - congruence.
  - assert (e' = e) by congruence. subst. reflexivity.
Qed.

Lemma cleanup_is_best_effort_witness :
  (cleanup_downloaded_file (Demo.env_failing (is_remove_of (Demo.path_of "film")))
     (Demo.path_of "film") Demo.w_film).2
  = record (LogError "Error removing file: timed out")
      (record (OsRemove (Demo.path_of "film")) Demo.w_film).
Proof.
  apply (proj2 (cleanup_is_best_effort
                  (Demo.env_failing (is_remove_of (Demo.path_of "film")))
                  (Demo.path_of "film") Demo.w_film)
           (Exn "NetworkError" "timed out")).
  - exists (120 * MB). reflexivity.
  - reflexivity.
Defined.

(** ** Delivery, from download to a clean disk *)

(** X14: a file within the sender's limit (at most 50 MB, or at most
    2048 MB with the premium flag), with a caption that can be built
    and a transport and a disk that work: [deliver] sends it, deletes
    the status message, removes the file from disk, in this order, and
    leaves the conversation as it was. *)
Theorem deliver_sends_and_removes
    (env : Env) (update : Update) (url quality media_type : string)
    (user_has_premium : bool) (media : Media) (w : World) (n : Z) (c : Caption) :
  files w !! filepath media = Some n ->
  (size_in_mb n <= inject_Z PREMIUM_USER_LIMIT_MB)%Q ->
  ((inject_Z REGULAR_USER_LIMIT_MB < size_in_mb n)%Q -> user_has_premium = true) ->
  make_caption media (size_in_mb n) = inr c ->
  fails env (send_call media_type (filepath media) c) = None ->
  fails env (OsRemove (filepath media)) = None ->
  deliver env update url quality media_type user_has_premium media w
  = (Return tt,
     {| files := delete (filepath media) (files w);
        user_data := user_data w;
        calls := calls w ++ [send_call media_type (filepath media) c;
                             DeleteMessage; OsRemove (filepath media)] |}).
Proof.
  intros Hf Hle Hprem Hc Fs Fr.
  destruct (deliver_sends env update url quality media_type user_has_premium
              media w n Hf) as [-> _].
  - now apply Qgtb_false.
  - intros H. apply Hprem. now apply Qgtb_true_inv.
  - run.
    rewrite (send_media_file_run env update media (size_in_mb n) media_type w c n Hc Hf).
    rewrite Fs.
    unfold cleanup_downloaded_file, try_except.
    rewrite (remove_if_exists_present env (filepath media) _ n) by exact Hf.
    rewrite (os_remove_ok env (filepath media) _ n) by (exact Hf || exact Fr).
    unfold record. cbn [files user_data calls]. rewrite <- !app_assoc. reflexivity.
Qed.

Lemma deliver_sends_and_removes_witness :
  deliver Demo.env (TextMessage 7 "https://example.com/film")
    "https://example.com/film" "best" "video" true Demo.film Demo.w_film
  = (Return tt,
     {| files := delete (filepath Demo.film) (files Demo.w_film);
        user_data := user_data Demo.w_film;
        calls := calls Demo.w_film
                 ++ [send_call "video" (filepath Demo.film)
                       {| cap_title := PStr "film"; cap_uploader := PStr "someone";
                          cap_minutes := 2; cap_seconds := 5;
                          cap_size_mb := size_in_mb (120 * MB) |};
                     DeleteMessage; OsRemove (filepath Demo.film)] |}).
Proof.
  apply (deliver_sends_and_removes Demo.env (TextMessage 7 "https://example.com/film")
           "https://example.com/film" "best" "video" true Demo.film Demo.w_film
           (120 * MB)).
  - reflexivity.
  - vm_compute. discriminate.
  - reflexivity.
  - reflexivity.
  - reflexivity.
  - reflexivity.
Defined.

(** X15: a file above the premium limit is not kept: with the "too
    large" text shown and a disk that works, [deliver] removes the file
    and returns, nothing is sent and nothing is left pending. *)
Theorem deliver_rejects_and_removes
    (env : Env) (update : Update) (url quality media_type : string)
    (user_has_premium : bool) (media : Media) (w : World) (n : Z) :
  files w !! filepath media = Some n ->
  (inject_Z PREMIUM_USER_LIMIT_MB < size_in_mb n)%Q ->
  fails env (EditText (MsgFileTooLarge (size_in_mb n) PREMIUM_USER_LIMIT_MB) None)
  = None ->
  fails env (OsRemove (filepath media)) = None ->
  deliver env update url quality media_type user_has_premium media w
  = (Return tt,
     {| files := delete (filepath media) (files w);
        user_data := user_data w;
        calls := calls w
                 ++ [EditText (MsgFileTooLarge (size_in_mb n) PREMIUM_USER_LIMIT_MB) None;
                     OsRemove (filepath media)] |}).
Proof.
  intros Hf Hgt Fe Fr. unfold deliver. run. rewrite Hf.
  rewrite (Qgtb_true _ _ Hgt). simpl. rewrite Fe.
  unfold cleanup_downloaded_file, try_except.
  rewrite (remove_if_exists_present env (filepath media) _ n) by exact Hf.
  rewrite (os_remove_ok env (filepath media) _ n) by (exact Hf || exact Fr).
  unfold record. cbn [files user_data calls]. rewrite <- !app_assoc. reflexivity.
Qed.

Lemma deliver_rejects_and_removes_witness :
  deliver Demo.env (TextMessage 7 "https://example.com/stream")
    "https://example.com/stream" "best" "video" true Demo.stream Demo.w_stream
  = (Return tt,
     {| files := delete (filepath Demo.stream) (files Demo.w_stream);
        user_data := user_data Demo.w_stream;
        calls := calls Demo.w_stream
                 ++ [EditText (MsgFileTooLarge (size_in_mb (2500 * MB))
                                               PREMIUM_USER_LIMIT_MB) None;
                     OsRemove (filepath Demo.stream)] |}).
Proof.
  apply (deliver_rejects_and_removes Demo.env
           (TextMessage 7 "https://example.com/stream")
           "https://example.com/stream" "best" "video" true Demo.stream
           Demo.w_stream (2500 * MB));
    reflexivity.
Defined.



(** ** Buttons *)

(** X17: every button that [/quality] offers, once pressed and answered,
    stores a quality for which [get_yt_dlp_options] has a format of its
    own, and leaves the rest of the conversation and the disk alone. *)
Theorem quality_buttons_set_known_quality
    (cfg : Config) (env : Env) (uid : Z) (w : World) (b : Button) :
  In b (concat quality_keyboard) ->
  fails env AnswerQuery = None ->
  exists q,
    callback_data b = "quality_" +:+ q
    /\ format (get_yt_dlp_options cfg q "video") <> "best[ext=mp4]/best"
    /\ (let r := button_callback env (CallbackQuery uid (callback_data b)) w in
        user_data r.2 = set_quality q (user_data w)
        /\ files r.2 = files w
        /\ new_calls w r.2 = [AnswerQuery; EditText (MsgQualitySet q) None]).
Proof.
  intros Hb F.
  assert (A : forall q, Py.startswith ("quality_" +:+ q) "quality_" = true ->
            Py.remove_all "quality_" ("quality_" +:+ q) = q ->
            let r := button_callback env (CallbackQuery uid ("quality_" +:+ q)) w in
            user_data r.2 = set_quality q (user_data w)
            /\ files r.2 = files w
            /\ new_calls w r.2 = [AnswerQuery; EditText (MsgQualitySet q) None]).
  { intros q H1 H2. unfold button_callback. cbn [query_data lift].
    unfold mbind, M_bind, mret, M_ret. cbn beta iota.
    rewrite (call_ok env AnswerQuery w F). cbn beta iota. rewrite H1, H2.
    unfold modify_user_data. cbn beta iota. unfold call, record.
    cbn [files user_data calls].
    destruct (fails env (EditText (MsgQualitySet q) None)); cbn [fst snd files user_data];
      (repeat split; apply new_calls_app; cbn [calls];
       rewrite <- app_assoc; reflexivity). }
  simpl in Hb. destruct Hb as [<- | [<- | [<- | [<- | []]]]].
  - exists "best". split; [reflexivity|]. split; [discriminate|].
    apply (A "best"); reflexivity.
  - exists "1080p". split; [reflexivity|]. split; [discriminate|].
    apply (A "1080p"); reflexivity.
  - exists "720p". split; [reflexivity|]. split; [discriminate|].
    apply (A "720p"); reflexivity.
  - exists "480p". split; [reflexivity|]. split; [discriminate|].
    apply (A "480p"); reflexivity.
Qed.

Lemma quality_buttons_set_known_quality_witness :
  exists q,
    "quality_720p" = "quality_" +:+ q
    /\ format (get_yt_dlp_options Demo.cfg q "video") <> "best[ext=mp4]/best"
    /\ (let r := button_callback Demo.env (CallbackQuery 7 "quality_720p") Demo.w_film in
        user_data r.2 = set_quality q (user_data Demo.w_film)
        /\ files r.2 = files Demo.w_film
        /\ new_calls Demo.w_film r.2 = [AnswerQuery; EditText (MsgQualitySet q) None]).
Proof.
  apply (quality_buttons_set_known_quality Demo.cfg Demo.env 7 Demo.w_film
           {| label := "720p"; callback_data := "quality_720p" |}).
  - right. right. left. reflexivity.
  - reflexivity.
Defined.

(** X18: a button payload that neither starts with [quality_] nor is
    exactly [premium_yes] or [premium_no] is answered and otherwise
    ignored: no message, no change of the conversation or the disk. *)
Theorem unknown_payload_is_ignored (env : Env) (uid : Z) (data : string) (w : World) :
  Py.startswith data "quality_" = false ->
  data <> "premium_yes" ->
  data <> "premium_no" ->
  (button_callback env (CallbackQuery uid data) w).2 = record AnswerQuery w.
Proof.
  intros H1 H2 H3. apply String.eqb_neq in H2, H3.
  unfold button_callback. cbn [query_data lift].
  unfold mbind, M_bind, mret, M_ret. cbn beta iota. rewrite H1, H2, H3.
  unfold call. destruct (fails env AnswerQuery); cbn beta iota;
    [reflexivity|]. destruct (Py.startswith data "premium_"); reflexivity.
Qed.

Lemma unknown_payload_is_ignored_witness :
  (button_callback Demo.env (CallbackQuery 7 "premium_maybe") Demo.w_film).2
  = record AnswerQuery Demo.w_film.
Proof.
  apply (unknown_payload_is_ignored Demo.env 7 "premium_maybe" Demo.w_film).
  - reflexivity.
  - discriminate.
  - discriminate.
Defined.

(** X19: [premium_yes] with nothing pending: the premium flag is set all
    the same, the "file expired" text is the one message, and the disk
    and the other preferences are untouched. *)
Theorem premium_yes_without_pending (env : Env) (uid : Z) (w : World) :
  ud_pending_file (user_data w) = None ->
  fails env AnswerQuery = None ->
  let r := button_callback env (CallbackQuery uid "premium_yes") w in
  user_data r.2 = set_has_premium true (user_data w)
  /\ files r.2 = files w
  /\ new_calls w r.2 = [AnswerQuery; EditText MsgFileExpired None].
Proof.
  intros Hp F. unfold button_callback. run. rewrite F. unfold record. world.
  change (ud_pending_file (set_has_premium true (user_data w)))
    with (ud_pending_file (user_data w)).
  rewrite Hp.
  destruct (fails env (EditText MsgFileExpired None)); cbn [fst snd files user_data];
    (repeat split; apply new_calls_app; cbn [calls];
     rewrite <- app_assoc; reflexivity).
Qed.

Lemma premium_yes_without_pending_witness :
  let r := button_callback Demo.env (CallbackQuery 7 "premium_yes") Demo.w_film in
  user_data r.2 = set_has_premium true (user_data Demo.w_film)
  /\ files r.2 = files Demo.w_film
  /\ new_calls Demo.w_film r.2 = [AnswerQuery; EditText MsgFileExpired None].
Proof.
  apply (premium_yes_without_pending Demo.env 7 Demo.w_film); reflexivity.
Defined.



(** X21: [premium_no] when the removal of the pending file fails: the
    rejection text has been shown, the exception of [os.remove] leaves
    the handler uncaught, and the pending record is not cleared. *)
Theorem premium_no_remove_failure
    (env : Env) (uid : Z) (w : World) (p : PendingFile) (n : Z) (e : exn) :
  ud_pending_file (user_data w) = Some p ->
  files w !! pf_filepath p = Some n ->
  fails env AnswerQuery = None ->
  fails env (EditText (MsgPremiumRequired (pf_file_size_mb p) REGULAR_USER_LIMIT_MB) None)
  = None ->
  fails env (OsRemove (pf_filepath p)) = Some e ->
  button_callback env (CallbackQuery uid "premium_no") w
  = (Raise e,
     {| files := files w;
        user_data := user_data w;
        calls := calls w ++ [AnswerQuery;
                             EditText (MsgPremiumRequired (pf_file_size_mb p)
                                                          REGULAR_USER_LIMIT_MB) None;
                             OsRemove (pf_filepath p)] |}).
Proof.
  intros Hp Hf F1 F2 F3. unfold button_callback, del_pending_file. run.
  rewrite F1. unfold record. world. rewrite Hp. world. rewrite F2. world.
  rewrite (remove_if_exists_present env (pf_filepath p) _ n) by exact Hf.
  unfold os_remove, record. world. rewrite Hf, F3.
  rewrite <- !app_assoc. reflexivity.
Qed.

Lemma premium_no_remove_failure_witness :
  exists w',
    button_callback (Demo.env_failing (is_remove_of (Demo.path_of "film")))
      (CallbackQuery 7 "premium_no")
      {| files := files Demo.w_film;
         user_data := set_pending_file
                        (Some (pending_record Demo.film (size_in_mb (120 * MB)) "video"))
                        empty_user_data;
         calls := [] |}
    = (Raise (Exn "NetworkError" "timed out"), w')
    /\ ud_pending_file (user_data w')
       = Some (pending_record Demo.film (size_in_mb (120 * MB)) "video").
Proof.
  eexists. split.
  - apply (premium_no_remove_failure
             (Demo.env_failing (is_remove_of (Demo.path_of "film"))) 7 _
             (pending_record Demo.film (size_in_mb (120 * MB)) "video") (120 * MB)
             (Exn "NetworkError" "timed out")); reflexivity.
  - reflexivity.
Defined.

(** X22: prompt, then "No Premium", with a transport and a disk that
    work: the file that [deliver] put on hold is removed, the pending
    slot is empty again, and the calls are the prompt, the answer, the
    rejection text and the removal. *)
Theorem prompt_then_no_premium_discards
    (env : Env) (update : Update) (uid : Z) (url quality media_type : string)
    (media : Media) (w : World) (n : Z) :
  files w !! filepath media = Some n ->
  (inject_Z REGULAR_USER_LIMIT_MB < size_in_mb n)%Q ->
  (size_in_mb n <= inject_Z PREMIUM_USER_LIMIT_MB)%Q ->
  (forall c, fails env c = None) ->
  let w1 := (deliver env update url quality media_type false media w).2 in
  button_callback env (CallbackQuery uid "premium_no") w1
  = (Return tt,
     {| files := delete (filepath media) (files w);
        user_data := set_pending_file None (user_data w);
        calls := calls w
                 ++ [EditText (MsgLargeFile (size_in_mb n) REGULAR_USER_LIMIT_MB
                                            PREMIUM_USER_LIMIT_MB)
                              (Some (premium_keyboard url quality media_type));
                     AnswerQuery;
                     EditText (MsgPremiumRequired (size_in_mb n) REGULAR_USER_LIMIT_MB)
                              None;
                     OsRemove (filepath media)] |}).
Proof.
  intros Hf H1 H2 F w1. subst w1.
  rewrite (deliver_prompts env update url quality media_type media w n Hf H1 H2), F.
  cbn [snd].
  rewrite (premium_no_resolves env uid _
             (pending_record media (size_in_mb n) media_type) n);
    [| reflexivity | exact Hf | exact F].
  cbn [files user_data calls pending_record pf_filepath pf_file_size_mb].
  rewrite <- !app_assoc. reflexivity.
Qed.

Lemma prompt_then_no_premium_discards_witness :
  let w1 := (deliver Demo.env (TextMessage 7 "https://example.com/film")
               "https://example.com/film" "best" "video" false Demo.film Demo.w_film).2 in
  button_callback Demo.env (CallbackQuery 7 "premium_no") w1
  = (Return tt,
     {| files := delete (filepath Demo.film) (files Demo.w_film);
        user_data := set_pending_file None (user_data Demo.w_film);
        calls := calls Demo.w_film
                 ++ [EditText (MsgLargeFile (size_in_mb (120 * MB)) REGULAR_USER_LIMIT_MB
                                            PREMIUM_USER_LIMIT_MB)
                              (Some (premium_keyboard "https://example.com/film"
                                                      "best" "video"));
                     AnswerQuery;
                     EditText (MsgPremiumRequired (size_in_mb (120 * MB))
                                                  REGULAR_USER_LIMIT_MB) None;
                     OsRemove (filepath Demo.film)] |}).
Proof.
  apply (prompt_then_no_premium_discards Demo.env
           (TextMessage 7 "https://example.com/film") 7
           "https://example.com/film" "best" "video" Demo.film Demo.w_film (120 * MB)).
  - reflexivity.
  - reflexivity.
  - vm_compute. discriminate.
  - reflexivity.
Defined.



(** ** Failures on the way *)








(** ** The allow-list, from the environment variable to the decision *)

Lemma split_single (x : string) :
  all_chars not_comma x = true -> Py.split "," x = [x].
Proof.
  induction x as [|c x IH]; [reflexivity|].
  cbn [all_chars Py.split]. intros H. apply andb_true_iff in H as [Hc Hx].
  unfold not_comma in Hc. apply negb_true_iff in Hc. rewrite Hc.
  now rewrite (IH Hx).
Qed.

Lemma split_item (x rest : string) :
  all_chars not_comma x = true ->
  Py.split "," (x +:+ String "," rest) = x :: Py.split "," rest.
Proof.
  induction x as [|c x IH]; [reflexivity|].
  cbn [all_chars]. intros H. apply andb_true_iff in H as [Hc Hx].
  unfold not_comma in Hc. apply negb_true_iff in Hc.
  change (String c x +:+ String "," rest) with (String c (x +:+ String "," rest)).
  cbn [Py.split]. rewrite Hc. now rewrite (IH Hx).
Qed.

(** Splitting at commas undoes joining with commas. *)
Lemma split_concat (l : list string) :
  l <> [] ->
  Forall (fun x => all_chars not_comma x = true) l ->
  Py.split "," (String.concat "," l) = l.
Proof.
  intros Hne H. induction H as [|x l Hx Hl IH]; [congruence|].
  destruct l as [|y l].
  - apply split_single, Hx.
  - change (String.concat "," (x :: y :: l))
      with (x +:+ String "," (String.concat "," (y :: l))).
    rewrite (split_item x _ Hx). f_equal. apply IH. discriminate.
Qed.

Lemma pretty_N_go_chars (P : ascii -> bool) (x : N) (s : string) :
  (forall d, P (pretty_N_char d) = true) ->
  all_chars P s = true -> all_chars P (pretty_N_go x s) = true.
Proof.
  intros HP. revert s. induction (N.lt_wf_0 x) as [x _ IH]; intros s Hs.
  destruct (decide (x = 0)%N) as [->|Hx].
  - now rewrite pretty_N_go_0.
  - rewrite pretty_N_go_step by lia. apply IH.
    + apply N.div_lt; lia.
    + cbn [all_chars]. now rewrite HP, Hs.
Qed.

Lemma pretty_N_go_nonempty (x : N) (s : string) :
  s <> "" -> pretty_N_go x s <> "".
Proof.
  revert s. induction (N.lt_wf_0 x) as [x _ IH]; intros s Hs.
  destruct (decide (x = 0)%N) as [->|Hx].
  - now rewrite pretty_N_go_0.
  - rewrite pretty_N_go_step by lia. apply IH; [apply N.div_lt; lia | discriminate].
Qed.

Lemma pretty_N_char_not_comma (d : N) : not_comma (pretty_N_char d) = true.
Proof. unfold pretty_N_char. repeat case_match; reflexivity. Qed.

(** [str(n)] holds no comma and is not empty. *)
Lemma str_of_int_chars (n : Z) :
  all_chars not_comma (str_of_int n) = true /\ str_of_int n <> "".
Proof.
  assert (A : forall p : positive,
            all_chars not_comma (pretty (N.pos p)) = true /\ pretty (N.pos p) <> "").
  { intros p. unfold pretty, pretty_N. case_decide; [lia|]. split.
    - apply pretty_N_go_chars; [apply pretty_N_char_not_comma | reflexivity].
    - rewrite pretty_N_go_step by lia. apply pretty_N_go_nonempty. discriminate. }
  unfold str_of_int, pretty, pretty_Z. destruct n as [|p|p].
  - split; [reflexivity | discriminate].
  - apply A.
  - destruct (A p) as [H1 H2]. split; [|discriminate].
    change ("-" +:+ pretty p) with (String "-" (pretty (N.pos p))).
    cbn [all_chars]. now rewrite H1.
Qed.

Lemma mem_str_of_int (uid : Z) (ids : list Z) :
  Py.mem (str_of_int uid) (map str_of_int ids) = true <-> In uid ids.
Proof.
  unfold Py.mem. rewrite existsb_exists. split.
  - intros (x & Hx & E). apply in_map_iff in Hx as (i & <- & Hi).
    apply String.eqb_eq in E. unfold str_of_int in E.
    apply (inj pretty) in E. now subst.
  - intros H. exists (str_of_int uid). split; [now apply in_map|].
    apply String.eqb_refl.
Qed.

(** X27: an allow-list written as user ids joined by commas admits
    exactly those users.  The variable splits back into the ids' decimal
    strings; a listed sender is processed, any other sender gets the
    unauthorized notice and nothing else. *)
Theorem allow_list_of_ids
    (cfg : Config) (env : Env) (ids : list Z) (uid : Z) (text : string) (w : World) :
  ids <> [] ->
  ALLOWED_USERS cfg
  = allowed_users_of_env (Some (String.concat "," (map str_of_int ids))) ->
  ALLOWED_USERS cfg = map str_of_int ids
  /\ (In uid ids ->
      handle_message cfg env (TextMessage uid text) w
      = process_message cfg env (TextMessage uid text) w)
  /\ (~ In uid ids ->
      (handle_message cfg env (TextMessage uid text) w).2
      = record (ReplyText MsgUnauthorized None) w).
Proof.
  intros Hne E.
  assert (EA : ALLOWED_USERS cfg = map str_of_int ids).
  { rewrite E. unfold allowed_users_of_env. cbn [default from_option].
    apply split_concat.
    - destruct ids; [congruence | discriminate].
    - apply List.Forall_forall. intros x Hx. apply in_map_iff in Hx as (i & <- & _).
      apply str_of_int_chars. }
  assert (Hc : whitelist_configured cfg = true).
  { unfold whitelist_configured. rewrite EA.
    destruct ids as [|i ids]; [congruence|]. cbn [map].
    apply negb_true_iff, String.eqb_neq, str_of_int_chars. }
  split; [exact EA|]. unfold handle_message. cbn [effective_user_id].
  rewrite Hc, EA. split.
  - intros Hin. apply mem_str_of_int in Hin. now rewrite Hin.
  - intros Hnin.
    destruct (Py.mem (str_of_int uid) (map str_of_int ids)) eqn:Hm.
    + apply mem_str_of_int in Hm. contradiction.
    + cbn [negb andb]. unfold call. destruct (fails env _); reflexivity.
Qed.

Lemma allow_list_of_ids_witness :
  ALLOWED_USERS (Demo.cfg_allowing "111,-5,42") = map str_of_int [111; -5; 42]
  /\ (In 11 [111; -5; 42] ->
      handle_message (Demo.cfg_allowing "111,-5,42") Demo.env
        (TextMessage 11 "https://example.com/clip") Demo.w0
      = process_message (Demo.cfg_allowing "111,-5,42") Demo.env
          (TextMessage 11 "https://example.com/clip") Demo.w0)
  /\ (~ In 11 [111; -5; 42] ->
      (handle_message (Demo.cfg_allowing "111,-5,42") Demo.env
         (TextMessage 11 "https://example.com/clip") Demo.w0).2
      = record (ReplyText MsgUnauthorized None) Demo.w0).
Proof.
  apply (allow_list_of_ids (Demo.cfg_allowing "111,-5,42") Demo.env [111; -5; 42] 11
           "https://example.com/clip" Demo.w0).
  - discriminate.
  - reflexivity.
Defined.

(** ** The URL validator *)

Section Classes.

Context (P : (ascii -> bool) -> Prop).

Lemma classes_all_seq (a b : Re.regex) :
  classes_all P a -> classes_all P b -> classes_all P (Re.seq a b).
Proof. destruct a, b; simpl; tauto. Qed.

Lemma classes_all_alt (a b : Re.regex) :
  classes_all P a -> classes_all P b -> classes_all P (Re.alt a b).
Proof. destruct a, b; simpl; tauto. Qed.

Lemma classes_all_deriv (c : ascii) (r : Re.regex) :
  classes_all P r -> classes_all P (Re.deriv c r).
Proof.
  induction r as [| |p|a IHa b IHb|a IHa b IHb|a IHa|a IHa lo hi]; simpl.
  - trivial.
  - trivial.
  - intros _. now destruct (p c).
  - intros [Ha Hb]. destruct (Re.nullable a).
    + apply classes_all_alt; [apply classes_all_seq|]; auto.
    + apply classes_all_seq; auto.
  - intros [Ha Hb]. apply classes_all_alt; auto.
  - intros Ha. apply classes_all_seq; auto.
  - intros Ha. destruct hi; simpl; [trivial|]. apply classes_all_seq; auto.
Qed.

End Classes.

(** Two characters that no class of [r] tells apart have the same
    derivative. *)
Lemma deriv_ext (c c' : ascii) (r : Re.regex) :
  classes_all (fun p => p c = p c') r -> Re.deriv c r = Re.deriv c' r.
Proof.
  induction r as [| |p|a IHa b IHb|a IHa b IHb|a IHa|a IHa lo hi]; simpl.
  - trivial.
  - trivial.
  - now intros ->.
  - intros [Ha Hb]. now rewrite (IHa Ha), (IHb Hb).
  - intros [Ha Hb]. now rewrite (IHa Ha), (IHb Hb).
  - intros Ha. now rewrite (IHa Ha).
  - intros Ha. destruct hi; [reflexivity|]. now rewrite (IHa Ha).
Qed.

Lemma classes_all_impl (P Q : (ascii -> bool) -> Prop) (r : Re.regex) :
  (forall p, P p -> Q p) -> classes_all P r -> classes_all Q r.
Proof. intros H. induction r; simpl; try tauto; auto. Qed.

(** An expression whose classes do not tell a letter from its lower case
    matches a string exactly when it matches the lowered string. *)
Lemma fullmatch_lower (r : Re.regex) (s : string) :
  classes_all (fun p => forall c, p (ascii_lower c) = p c) r ->
  Re.fullmatch r (str_lower s) = Re.fullmatch r s.
Proof.
  revert r. induction s as [|c s IH]; intros r Hr; [reflexivity|].
  cbn [str_lower Re.fullmatch].
  rewrite (deriv_ext (ascii_lower c) c r)
    by (eapply classes_all_impl; [|exact Hr]; intros p Hp; apply Hp).
  pose proof (classes_all_deriv _ c r Hr) as Hd.
  destruct (Re.deriv c r); try reflexivity; now apply IH.
Qed.

Ltac all_ascii c := destruct c as [[] [] [] [] [] [] [] []].

Lemma url_pattern_case_closed :
  classes_all (fun p => forall c, p (ascii_lower c) = p c) url_pattern.
Proof.
  unfold url_pattern. cbn [classes_all Re.lit_i Re.opt Re.plus Re.chr Re.chr_i].
  repeat split; intros c; all_ascii c; reflexivity.
Qed.

(** X28: [is_valid_url] takes no account of letter case: a URL and its
    lower-case form are both valid or both invalid. *)
Theorem is_valid_url_ignores_case (url : string) :
  is_valid_url (str_lower url) = is_valid_url url.
Proof. apply fullmatch_lower, url_pattern_case_closed. Qed.











